(** * perplexity-search: the [search] tool of [src/index.ts]

    A shallow embedding of the MCP server defined in [src/index.ts]: the
    zod configuration schema, the construction of the outbound chat
    completion request, and the mapping of the HTTP outcome to a tool
    result.  The file has four layers:

    - [JS]: the part of the ECMAScript runtime the program relies on
      (values, truthiness, property reads, string conversion,
      [JSON.stringify], exceptions);
    - [Host]: standard error and [fetch], as state passed along;
    - [Zod]: the schema combinators used by [configSchema] and by the
      tool's [inputSchema];
    - [Index]: the program itself, definition by definition.

    The properties follow: what the schemas accept, what the response
    block returns case by case, how an invocation unfolds, the claims of
    the specification, and further properties of the schemas, of
    [createServer] and of the handler. *)

From Stdlib Require Import ZArith NArith List String Ascii Bool Lia Floats.
From Stdlib Require Import DecimalString.
Import ListNotations.
Open Scope string_scope.
Open Scope Z_scope.

#[local] Set Warnings "-register-all,-inexact-float".

(* ================================================================== *)
(** * The ECMAScript runtime *)
(* ================================================================== *)

Module JS.

(** ** Values

    The values the program manipulates are the ones [JSON.parse], object
    and array literals and zod produce: primitives, arrays and plain
    objects.  A Number is an IEEE 754 binary64 float.  A String is a
    sequence of code units; code units are restricted to those below 256,
    one [ascii] each.  An object is the list of its own enumerable
    properties in property order; a well-formed object has no repeated
    key, and reads take the first binding. *)

Inductive value : Type :=
| VUndefined
| VNull
| VBool (b : bool)
| VNumber (x : float)
| VString (s : string)
| VArray (elements : list value)
| VObject (properties : list (string * value)).

(** What a [throw] carries.  [ErrorInstance] is any object for which
    [instanceof Error] holds (TypeError, SyntaxError, ZodError,
    DOMException ...), with its [name] and its [message], a String as for
    every built-in error; [Thrown] is any other thrown value. *)

Inductive thrown : Type :=
| ErrorInstance (name message : string)
| Thrown (v : value).

(** Completion of an evaluation: a value, or an abrupt [throw].  A
    rejected promise that is awaited is a [Throw]. *)

Inductive completion (A : Type) : Type :=
| Normal (a : A)
| Throw (t : thrown).

Arguments Normal {A} a.
Arguments Throw {A} t.

Definition TypeError (message : string) : thrown :=
  ErrorInstance "TypeError" message.

(** ** ToBoolean (truthiness) *)

Definition ToBoolean (v : value) : bool :=
  match v with
  | VUndefined => false
  | VNull => false
  | VBool b => b
  | VNumber x => negb (PrimFloat.eqb x 0%float || PrimFloat.is_nan x)
  | VString s => negb (String.eqb s EmptyString)
  | VArray _ => true
  | VObject _ => true
  end.

(** ** Number::toString, radix 10

    [shortest_decimal m e] finds, for the positive float [m * 2^e], the
    integer [s] with the fewest digits and the exponent [p] such that
    [s * 10^p] rounds to that float, taking the closest such [s].  The
    float's rounding interval is [(4m - l) * 2^(e-2), (4m + 2) * 2^(e-2)]
    with [l = 1] at a binade boundary and [l = 2] otherwise; its ends
    belong to it when [m] is even.  Grids [10^p] are tried from coarse to
    fine: the first one with a point in the interval gives the fewest
    digits. *)

Definition pow2 (k : Z) : Z := 2 ^ k.
Definition pow10 (k : Z) : Z := 10 ^ k.

Definition grid_candidate (m : Z) (e : Z) (p : Z) : option Z :=
  let X := 4 * m in
  let l := if (m =? pow2 52) && (-1074 <? e) then 1 else 2 in
  let L := X - l in
  let H := X + 2 in
  (* a bound [b] stands for [b * N / D] in units of [10^p] *)
  let N := (if 0 <=? e - 2 then pow2 (e - 2) else 1)
           * (if p <? 0 then pow10 (- p) else 1) in
  let D := (if 0 <=? e - 2 then 1 else pow2 (2 - e))
           * (if p <? 0 then 1 else pow10 p) in
  let inside (s : Z) : bool :=
    (0 <? s) &&
    (if Z.even m
     then (L * N <=? s * D) && (s * D <=? H * N)
     else (L * N <? s * D) && (s * D <? H * N)) in
  let lo := (X * N) / D in
  let hi := lo + 1 in
  let d_lo := X * N - lo * D in
  let d_hi := hi * D - X * N in
  match inside lo, inside hi with
  | true, true =>
      if d_lo <? d_hi then Some lo
      else if d_hi <? d_lo then Some hi
      else if Z.even lo then Some lo else Some hi
  | true, false => Some lo
  | false, true => Some hi
  | false, false => None
  end.

Fixpoint shortest_from (fuel : nat) (m e p : Z) : Z * Z :=
  match fuel with
  | O%nat => (m * pow2 e, 0)
  | S fuel' =>
      match grid_candidate m e p with
      | Some s => (s, p)
      | None => shortest_from fuel' m e (p - 1)
      end
  end.

Definition shortest_decimal (m e : Z) : Z * Z :=
  let bits := Z.log2 m + 1 + e in
  let p0 := Z.max (bits * 30103 / 100000) (bits * 30102 / 100000) + 2 in
  shortest_from 40 m e p0.

Definition decimal (n : Z) : string :=
  NilZero.string_of_uint (N.to_uint (Z.to_N n)).

Fixpoint zeros (n : nat) : string :=
  match n with
  | O%nat => EmptyString
  | S n' => String "0" (zeros n')
  end.

Definition format_decimal (s p : Z) : string :=
  let digits := decimal s in
  let k := Z.of_nat (String.length digits) in
  let n := p + k in
  let exponent :=
    "e" ++ (if 0 <=? n - 1 then "+" else "-") ++ decimal (Z.abs (n - 1)) in
  if (k <=? n) && (n <=? 21) then
    digits ++ zeros (Z.to_nat (n - k))
  else if (0 <? n) && (n <=? 21) then
    substring 0 (Z.to_nat n) digits ++ "."
      ++ substring (Z.to_nat n) (Z.to_nat (k - n)) digits
  else if (-6 <? n) && (n <=? 0) then
    "0." ++ zeros (Z.to_nat (- n)) ++ digits
  else if k =? 1 then
    digits ++ exponent
  else
    substring 0 1 digits ++ "."
      ++ substring 1 (Z.to_nat (k - 1)) digits ++ exponent.

Definition Number_toString (x : float) : string :=
  match Prim2SF x with
  | S754_nan => "NaN"
  | S754_zero _ => "0"
  | S754_infinity false => "Infinity"
  | S754_infinity true => "-Infinity"
  | S754_finite sign m e =>
      let '(s, p) := shortest_decimal (Zpos m) e in
      (if sign then "-" else EmptyString) ++ format_decimal s p
  end.

(** ** Property reads

    [Get v key] is [v[key]] for the own properties of objects, the indexed
    elements of arrays and strings, and [length].  Reading a property of
    [undefined] or [null] throws a TypeError (V8's wording).  Properties
    found on the built-in prototypes are functions, which are not values
    of this model; the program reads none of them. *)

Fixpoint own_property (key : string) (properties : list (string * value))
  : option value :=
  match properties with
  | [] => None
  | (k, x) :: rest =>
      if String.eqb k key then Some x else own_property key rest
  end.

(** A canonical numeric string is an array index. *)
Definition array_index (key : string) : option nat :=
  match NilZero.uint_of_string key with
  | Some u =>
      let n := N.of_uint u in
      if String.eqb (decimal (Z.of_N n)) key then Some (N.to_nat n) else None
  | None => None
  end.

Definition number_of_nat (n : nat) : value :=
  VNumber (PrimFloat.of_uint63 (Uint63.of_Z (Z.of_nat n))).

Definition Get (v : value) (key : string) : completion value :=
  match v with
  | VUndefined =>
      Throw (TypeError
        ("Cannot read properties of undefined (reading '" ++ key ++ "')"))
  | VNull =>
      Throw (TypeError
        ("Cannot read properties of null (reading '" ++ key ++ "')"))
  | VBool _ | VNumber _ => Normal VUndefined
  | VString s =>
      if String.eqb key "length" then Normal (number_of_nat (String.length s))
      else match array_index key with
           | Some i =>
               match String.get i s with
               | Some c => Normal (VString (String c EmptyString))
               | None => Normal VUndefined
               end
           | None => Normal VUndefined
           end
  | VArray elements =>
      if String.eqb key "length" then Normal (number_of_nat (List.length elements))
      else match array_index key with
           | Some i => Normal (nth i elements VUndefined)
           | None => Normal VUndefined
           end
  | VObject properties =>
      match own_property key properties with
      | Some x => Normal x
      | None => Normal VUndefined
      end
  end.

(** One property of a destructuring pattern [const { key } = v]. *)
Definition destructure (name : string) (v : value) (key : string)
  : completion value :=
  let fail (what : string) :=
    Throw (TypeError ("Cannot destructure property '" ++ key ++ "' of '"
                      ++ name ++ "' as it is " ++ what ++ ".")) in
  match v with
  | VUndefined => fail "undefined"
  | VNull => fail "null"
  | _ => Get v key
  end.

(** [o[key] = x] on a plain object: an existing property keeps its place,
    a new one goes last. *)
Fixpoint set_property (key : string) (x : value)
  (properties : list (string * value)) : list (string * value) :=
  match properties with
  | [] => [(key, x)]
  | (k, y) :: rest =>
      if String.eqb k key then (k, x) :: rest
      else (k, y) :: set_property key x rest
  end.

Definition Set_ (o : value) (key : string) (x : value) : value :=
  match o with
  | VObject properties => VObject (set_property key x properties)
  | _ => o
  end.

(** ** ToString

    As in a template literal.  An array is joined with commas, [null] and
    [undefined] elements giving the empty string.  A plain object goes
    through [Object.prototype.toString] unless it has an own [toString]
    property: such a property of a JSON value is not callable, [valueOf]
    does not yield a primitive, and the conversion throws. *)

Fixpoint ToString (v : value) : completion string :=
  match v with
  | VUndefined => Normal "undefined"
  | VNull => Normal "null"
  | VBool true => Normal "true"
  | VBool false => Normal "false"
  | VNumber x => Normal (Number_toString x)
  | VString s => Normal s
  | VArray elements =>
      let element (x : value) : completion string :=
        match x with
        | VUndefined | VNull => Normal EmptyString
        | _ => ToString x
        end in
      (fix join (xs : list value) : completion string :=
         match xs with
         | [] => Normal EmptyString
         | [x] => element x
         | x :: rest =>
             match element x with
             | Normal s =>
                 match join rest with
                 | Normal r => Normal (s ++ "," ++ r)
                 | Throw t => Throw t
                 end
             | Throw t => Throw t
             end
         end) elements
  | VObject properties =>
      match own_property "toString" properties with
      | Some _ => Throw (TypeError "Cannot convert object to primitive value")
      | None => Normal "[object Object]"
      end
  end.

(** ** JSON.stringify

    [JSON_stringify v gap] is [JSON.stringify(v, null, gap)] with the gap
    given as the string of spaces; the result is [None] where JavaScript
    returns [undefined].  No value of this model has a callable [toJSON]. *)

Definition dquote : string := String (ascii_of_nat 34) EmptyString.
Definition newline : string := String (ascii_of_nat 10) EmptyString.

Definition hex_digit (n : nat) : ascii :=
  nth n ["0"; "1"; "2"; "3"; "4"; "5"; "6"; "7"; "8"; "9";
         "a"; "b"; "c"; "d"; "e"; "f"]%char "0"%char.

Definition quote_code_unit (c : ascii) : string :=
  let n := nat_of_ascii c in
  if Nat.eqb n 34 then "\" ++ dquote
  else if Nat.eqb n 92 then "\\"
  else if Nat.eqb n 8 then "\b"
  else if Nat.eqb n 12 then "\f"
  else if Nat.eqb n 10 then "\n"
  else if Nat.eqb n 13 then "\r"
  else if Nat.eqb n 9 then "\t"
  else if Nat.ltb n 32 then
    "\u00" ++ String (hex_digit (Nat.div n 16))
                (String (hex_digit (Nat.modulo n 16)) EmptyString)
  else String c EmptyString.

Fixpoint quote_code_units (s : string) : string :=
  match s with
  | EmptyString => EmptyString
  | String c rest => quote_code_unit c ++ quote_code_units rest
  end.

Definition QuoteJSONString (s : string) : string :=
  dquote ++ quote_code_units s ++ dquote.

(** The text of an array or object from the texts of its parts. *)
Definition wrap (opening closing gap stepback : string) (partial : list string)
  : string :=
  match partial with
  | [] => opening ++ closing
  | _ =>
      if String.eqb gap EmptyString then
        opening ++ String.concat "," partial ++ closing
      else
        let indent := stepback ++ gap in
        opening ++ newline ++ indent
          ++ String.concat ("," ++ newline ++ indent) partial
          ++ newline ++ stepback ++ closing
  end.

Fixpoint SerializeJSONProperty (gap indent : string) (v : value)
  : option string :=
  match v with
  | VUndefined => None
  | VNull => Some "null"
  | VBool true => Some "true"
  | VBool false => Some "false"
  | VNumber x =>
      Some (if PrimFloat.is_finite x then Number_toString x else "null")
  | VString s => Some (QuoteJSONString s)
  | VArray elements =>
      let partial :=
        (fix items (xs : list value) : list string :=
           match xs with
           | [] => []
           | x :: rest =>
               match SerializeJSONProperty gap (indent ++ gap) x with
               | Some s => s
               | None => "null"
               end :: items rest
           end) elements in
      Some (wrap "[" "]" gap indent partial)
  | VObject properties =>
      let partial :=
        (fix members (ps : list (string * value)) : list string :=
           match ps with
           | [] => []
           | (k, x) :: rest =>
               match SerializeJSONProperty gap (indent ++ gap) x with
               | Some s =>
                   (QuoteJSONString k ++ ":"
                      ++ (if String.eqb gap EmptyString then EmptyString
                          else " ") ++ s) :: members rest
               | None => members rest
               end
           end) properties in
      Some (wrap "{" "}" gap indent partial)
  end.

Definition JSON_stringify (v : value) (gap : string) : value :=
  match SerializeJSONProperty gap EmptyString v with
  | Some s => VString s
  | None => VUndefined
  end.

(** ** Sequencing

    Pure evaluations are sequenced in [completion]; a [Throw] skips the
    rest. *)

Definition cbind {A B : Type} (c : completion A) (k : A -> completion B)
  : completion B :=
  match c with
  | Normal a => k a
  | Throw t => Throw t
  end.

End JS.

Import JS.

Notation "x <~ c ;; k" := (cbind c (fun x => k))
  (at level 61, c at next level, right associativity).

(* ================================================================== *)
(** * The host: standard error and the network *)
(* ================================================================== *)

Module Host.

(** The second argument of [fetch] and the part of a [Response] the
    program looks at.  [status] is the status code, an unsigned short
    that HTTP keeps to three digits; [json] is the outcome of the one
    call of [response.json()]: the parsed body, or the error the body
    read or [JSON.parse] raises. *)

Record RequestInit : Type := {
  method : string;
  headers : list (string * string);
  body : value
}.

Record Response : Type := {
  status : N;
  json : completion value
}.

(** [response.ok]: the status is in the range 200 to 299. *)
Definition ok (response : Response) : bool :=
  (200 <=? status response)%N && (status response <=? 299)%N.

Definition status_value (response : Response) : value :=
  VNumber (PrimFloat.of_uint63 (Uint63.of_Z (Z.of_N (status response)))).

(** What an invocation leaves behind: the lines written with
    [console.error] and the HTTP requests sent, both in order. *)

Record World : Type := {
  stderr : list string;
  requests : list (string * RequestInit)
}.

Definition M (A : Type) : Type := World -> completion A * World.

Definition ret {A : Type} (a : A) : M A := fun w => (Normal a, w).

Definition bind {A B : Type} (m : M A) (k : A -> M B) : M B :=
  fun w =>
    match m w with
    | (Normal a, w') => k a w'
    | (Throw t, w') => (Throw t, w')
    end.

Definition lift {A : Type} (c : completion A) : M A := fun w => (c, w).

(** [try { body } catch (e) { handler e }] *)
Definition try_catch {A : Type} (body : M A) (handler : thrown -> M A) : M A :=
  fun w =>
    match body w with
    | (Normal a, w') => (Normal a, w')
    | (Throw t, w') => handler t w'
    end.

Definition console_error (line : string) : M unit :=
  fun w => (Normal tt, {| stderr := stderr w ++ [line];
                          requests := requests w |}).

(** [await fetch(url, init)]: the request goes out and [remote] decides
    what comes back, a response or a rejection. *)
Definition fetch (remote : string -> RequestInit -> completion Response)
  (url : string) (init : RequestInit) : M Response :=
  fun w => (remote url init,
            {| stderr := stderr w;
               requests := requests w ++ [(url, init)] |}).

End Host.

Import Host.

Notation "x <- m ;; k" := (bind m (fun x => k))
  (at level 61, m at next level, right associativity).

(** [a || b]: [b] is evaluated only when [a] is falsy. *)
Definition LogicalOr (a b : M value) : M value :=
  x <- a ;; if ToBoolean x then ret x else b.

(* ================================================================== *)
(** * zod *)
(* ================================================================== *)

Module Zod.

(** The schema constructors of zod 3 that [index.ts] uses.  [describe]
    only attaches documentation and is left out. *)

Inductive schema : Type :=
| ZString
| ZNumber
| ZEnum (options : list string)
| ZDefault (inner : schema) (default : value)
| ZOptional (inner : schema)
| ZObject (shape : list (string * schema)).

(** [safeParse]: the parsed value, or [None] when there are issues.  An
    object schema reads each key of its shape, drops the other keys, and
    leaves out a key that is neither in the input nor given a value. *)

Fixpoint safeParse (s : schema) (input : value) : option value :=
  match s with
  | ZString =>
      match input with
      | VString _ => Some input
      | _ => None
      end
  | ZNumber =>
      match input with
      | VNumber x => if PrimFloat.is_nan x then None else Some input
      | _ => None
      end
  | ZEnum options =>
      match input with
      | VString x => if existsb (String.eqb x) options then Some input else None
      | _ => None
      end
  | ZDefault inner default =>
      safeParse inner (match input with
                       | VUndefined => default
                       | _ => input
                       end)
  | ZOptional inner =>
      match input with
      | VUndefined => Some VUndefined
      | _ => safeParse inner input
      end
  | ZObject shape =>
      match input with
      | VObject properties =>
          option_map VObject
            ((fix fields (sh : list (string * schema))
                : option (list (string * value)) :=
                match sh with
                | [] => Some []
                | (k, sk) :: rest =>
                    let present := own_property k properties in
                    let data := match present with
                                | Some x => x
                                | None => VUndefined
                                end in
                    match safeParse sk data, fields rest with
                    | Some x, Some out =>
                        Some (match x, present with
                              | VUndefined, None => out
                              | _, _ => (k, x) :: out
                              end)
                    | _, _ => None
                    end
                end) shape)
      | _ => None
      end
  end.

(** [parse] throws a ZodError where [safeParse] reports issues.  The
    error's message is the JSON text of the issue list; only the error's
    name is kept here. *)
Definition ZodError : thrown := ErrorInstance "ZodError" EmptyString.

Definition parse (s : schema) (input : value) : completion value :=
  match safeParse s input with
  | Some x => Normal x
  | None => Throw ZodError
  end.

End Zod.

Import Zod.

(* ================================================================== *)
(** * src/index.ts *)
(* ================================================================== *)

Module Index.

(** The result of a tool call: text blocks and the optional error flag. *)

Record TextContent : Type := {
  type : string;
  text : value
}.

Record CallToolResult : Type := {
  content : list TextContent;
  isError : option bool
}.

Record Tool : Type := {
  title : string;
  description : string;
  inputSchema : list (string * schema);
  handler : value -> M CallToolResult
}.

Record McpServer : Type := {
  name : string;
  version : string;
  tools : list (string * Tool)
}.

Definition registerTool (server : McpServer) (tool_name : string) (tool : Tool)
  : McpServer :=
  {| name := name server;
     version := version server;
     tools := tools server ++ [(tool_name, tool)] |}.

(** Lines 11 to 16. *)
Definition configSchema : schema :=
  ZObject
    [ ("perplexityApiKey", ZString);
      ("model", ZDefault (ZEnum ["sonar"; "sonar-pro"]) (VString "sonar-pro"));
      ("maxTokens", ZDefault ZNumber (VNumber 8192));
      ("temperature", ZDefault ZNumber (VNumber 0.2)) ].

(** Lines 40 to 43. *)
Definition search_inputSchema : list (string * schema) :=
  [ ("query", ZString);
    ("search_recency_filter",
       ZOptional (ZEnum ["month"; "week"; "day"; "hour"])) ].

Definition endpoint : string := "https://api.perplexity.ai/chat/completions".

(** Lines 49 to 64: the payload object and its optional property. *)
Definition payload (parsedConfig query search_recency_filter : value)
  : completion value :=
  model <~ Get parsedConfig "model" ;;
  max_tokens <~ Get parsedConfig "maxTokens" ;;
  temperature <~ Get parsedConfig "temperature" ;;
  let payload :=
    VObject
      [ ("model", model);
        ("messages",
           VArray [ VObject [ ("role", VString "user");
                              ("content", query) ] ]);
        ("max_tokens", max_tokens);
        ("temperature", temperature) ] in
  Normal (if ToBoolean search_recency_filter
          then Set_ payload "search_recency_filter" search_recency_filter
          else payload).

(** Line 66: the diagnostic line. *)
Definition using_model_line (parsedConfig : value) : completion string :=
  model <~ Get parsedConfig "model" ;;
  model <~ ToString model ;;
  max_tokens <~ Get parsedConfig "maxTokens" ;;
  max_tokens <~ ToString max_tokens ;;
  temperature <~ Get parsedConfig "temperature" ;;
  temperature <~ ToString temperature ;;
  Normal ("Using model: " ++ model ++ ", max_tokens: " ++ max_tokens
            ++ ", temperature: " ++ temperature).

(** Lines 68 to 75: the second argument of [fetch]. *)
Definition request_init (parsedConfig payload : value)
  : completion RequestInit :=
  key <~ Get parsedConfig "perplexityApiKey" ;;
  key <~ ToString key ;;
  Normal {| method := "POST";
            headers := [ ("Authorization", "Bearer " ++ key);
                         ("Content-Type", "application/json") ];
            body := JSON_stringify payload EmptyString |}.

(** Lines 78 to 84: the message of a response that is not ok.  The inner
    [try] covers [response.json()] and the property reads; its [catch]
    keeps the default. *)
Definition errorMessage (response : Response) : M value :=
  status <- lift (ToString (status_value response)) ;;
  let errorMessage := VString ("HTTP error! status: " ++ status) in
  try_catch
    ( errorData <- lift (json response) ;;
      LogicalOr
        (LogicalOr (lift (Get errorData "error"))
                   (lift (Get errorData "message")))
        (ret errorMessage) )
    (fun _ => ret errorMessage).

Definition error_result (message : string) : CallToolResult :=
  {| content := [ {| type := "text";
                     text := VString ("Perplexity API error: " ++ message) |} ];
     isError := Some true |}.

(** Lines 98 to 101. *)
Definition formattedResponse (responseData : value) : M value :=
  choices <- lift (Get responseData "choices") ;;
  first <- lift (Get choices "0") ;;
  message <- lift (Get first "message") ;;
  answer <- lift (Get message "content") ;;
  citations <- LogicalOr (lift (Get responseData "citations"))
                         (ret (VArray [])) ;;
  ret (VObject [ ("content", answer); ("citations", citations) ]).

(** Lines 77 to 108: what the handler does with the response. *)
Definition respond (response : Response) : M CallToolResult :=
  if negb (ok response) then
    errorMessage <- errorMessage response ;;
    errorMessage <- lift (ToString errorMessage) ;;
    ret (error_result errorMessage)
  else
    responseData <- lift (json response) ;;
    formattedResponse <- formattedResponse responseData ;;
    ret {| content :=
             [ {| type := "text";
                  text := JSON_stringify formattedResponse "  " |} ];
           isError := None |}.

(** Lines 109 to 119: the outer [catch]. *)
Definition caught (error : thrown) : M CallToolResult :=
  let errorMessage :=
    match error with
    | ErrorInstance _ message => message
    | Thrown _ => "Unknown error occurred"
    end in
  ret (error_result errorMessage).

(** Lines 45 to 120: the handler of the [search] tool.  The
    destructuring of the request is outside the [try]. *)
Definition search (remote : string -> RequestInit -> completion Response)
  (parsedConfig : value) (request : value) : M CallToolResult :=
  query <- lift (destructure "request" request "query") ;;
  search_recency_filter <-
    lift (destructure "request" request "search_recency_filter") ;;
  try_catch
    ( payload <- lift (payload parsedConfig query search_recency_filter) ;;
      line <- lift (using_model_line parsedConfig) ;;
      _ <- console_error line ;;
      init <- lift (request_init parsedConfig payload) ;;
      response <- fetch remote endpoint init ;;
      respond response )
    caught.

(** Lines 19 to 124. *)
Definition createServer
  (remote : string -> RequestInit -> completion Response) (config : value)
  : M McpServer :=
  parsedConfig <- lift (Zod.parse configSchema config) ;;
  let server := {| name := "perplexity-search-server";
                   version := "1.0.0";
                   tools := [] |} in
  model <- lift (Get parsedConfig "model") ;;
  model <- lift (ToString model) ;;
  _ <- console_error ("Using Perplexity model: " ++ model) ;;
  ret (registerTool server "search"
         {| title := "Search";
            description := "Perform a web search using Perplexity's API, which provides detailed and contextually relevant results with citations. By default, no time filtering is applied to search results.";
            inputSchema := search_inputSchema;
            handler := search remote parsedConfig |}).

End Index.

Import Index.

(* ================================================================== *)
(** * Vocabulary of the properties and sample runs *)
(* ================================================================== *)

(** A structured tool result: one text block holding a string, and an
    error flag that is either absent or [true]. *)
Definition structured (r : CallToolResult) : Prop :=
  (isError r = None \/ isError r = Some true)
  /\ exists t, content r = [ {| type := "text"; text := VString t |} ].

(** [needle] occurs in [hay]. *)
Definition occurs_in (needle hay : string) : Prop :=
  exists before after, hay = before ++ needle ++ after.

(** The decimal numeral of a status code. *)
Definition status_code (response : Response) : string :=
  decimal (Z.of_N (status response)).

(** Number::toString prints the integer [k] as its decimal numeral. *)
Definition status_prints (k : nat) : bool :=
  String.eqb
    (Number_toString (PrimFloat.of_uint63 (Uint63.of_Z (Z.of_nat k))))
    (decimal (Z.of_nat k)).

(** The citations of a response body read by presence: the [citations]
    property when the body has one, the empty array otherwise. *)
Definition citations_if_present (data : value) : value :=
  match data with
  | VObject properties =>
      match own_property "citations" properties with
      | Some citations => citations
      | None => VArray []
      end
  | _ => VArray []
  end.

(** The success result whose text is the serialized
    [{content, citations}]. *)
Definition success_result (answer citations : value) : CallToolResult :=
  {| content :=
       [ {| type := "text";
            text := JSON_stringify
                      (VObject [ ("content", answer);
                                 ("citations", citations) ])
                      "  " |} ];
     isError := None |}.

(** The reads of [responseData.choices[0].message.content], in order. *)
Definition read_answer (responseData : value) : completion value :=
  choices <~ Get responseData "choices" ;;
  first <~ Get choices "0" ;;
  message <~ Get first "message" ;;
  Get message "content".

(** The keys of a parsed configuration. *)
Definition config_keys : list string :=
  [ "perplexityApiKey"; "model"; "maxTokens"; "temperature" ].

(** A configuration with a key the schema does not know, and arguments
    with a filter outside the enumeration. *)
Definition config_extra_key : value :=
  VObject [ ("perplexityApiKey", VString "pplx-key");
            ("debug", VBool true);
            ("model", VString "sonar") ].

Definition args_france_year : value :=
  VObject [ ("query", VString "What is the capital of France?");
            ("search_recency_filter", VString "year") ].

Definition response_error_object : Response :=
  {| status := 401;
     json :=
       Normal
         (VObject
            [ ("error",
                 VObject [ ("message", VString "Invalid API key");
                           ("type", VString "invalid_api_key");
                           ("code", VNumber 401) ]) ]) |}.

(** [s] between double quotes, as a JSON string without escapes. *)
Definition quoted (s : string) : string := dquote ++ s ++ dquote.

(** A fresh host, a configuration with only the key, and the requests
    and responses of the scenarios. *)
Definition fresh : World := {| stderr := []; requests := [] |}.

Definition config_key_only : value :=
  VObject [ ("perplexityApiKey", VString "pplx-key") ].

Definition config_defaults : value :=
  VObject [ ("perplexityApiKey", VString "pplx-key");
            ("model", VString "sonar-pro");
            ("maxTokens", VNumber 8192);
            ("temperature", VNumber 0.2) ].

Definition config_other_model : value :=
  VObject [ ("perplexityApiKey", VString "pplx-key");
            ("model", VString "sonar-reasoning") ].

Definition args_france : value :=
  VObject [ ("query", VString "What is the capital of France?") ].

Definition args_france_week : value :=
  VObject [ ("query", VString "What is the capital of France?");
            ("search_recency_filter", VString "week") ].

Definition body_paris (citations : value) : value :=
  VObject
    [ ("choices",
         VArray [ VObject [ ("message",
                               VObject [ ("content", VString "Paris") ]) ] ]);
      ("citations", citations) ].

Definition response_paris : Response :=
  {| status := 200;
     json := Normal (body_paris (VArray [ VString "https://example.com" ])) |}.

Definition response_null_citations : Response :=
  {| status := 200; json := Normal (body_paris VNull) |}.

Definition response_invalid_key : Response :=
  {| status := 401;
     json := Normal (VObject [ ("error", VString "Invalid API key") ]) |}.

Definition response_empty_error : Response :=
  {| status := 401;
     json := Normal (VObject [ ("error", VString EmptyString) ]) |}.

Definition response_empty_error_message : Response :=
  {| status := 429;
     json := Normal (VObject [ ("error", VString EmptyString);
                               ("message", VString "Rate limited") ]) |}.

Definition response_bad_gateway : Response :=
  {| status := 502;
     json := Throw (ErrorInstance "SyntaxError"
                      "Unexpected token < in JSON at position 0") |}.

Definition always (outcome : completion Response)
  : string -> RequestInit -> completion Response :=
  fun _ _ => outcome.

(* ================================================================== *)
(** * Properties *)
(* ================================================================== *)

(** ** What the schemas accept *)

Lemma safeParse_string_inv (input x : value) :
  safeParse ZString input = Some x ->
  exists s, input = VString s /\ x = VString s.
Proof.
  destruct input; simpl; try discriminate.
  intros H; injection H as <-. eauto.
Qed.

Lemma safeParse_number_inv (input x : value) :
  safeParse ZNumber input = Some x ->
  exists n, input = VNumber n /\ x = VNumber n /\ PrimFloat.is_nan n = false.
Proof.
  destruct input; simpl; try discriminate.
  destruct (PrimFloat.is_nan x0) eqn:E; try discriminate.
  intros H; injection H as <-. eauto.
Qed.

Lemma safeParse_enum_inv (options : list string) (input x : value) :
  safeParse (ZEnum options) input = Some x ->
  exists s, input = VString s /\ x = VString s /\ In s options.
Proof.
  destruct input; simpl; try discriminate.
  destruct (existsb (String.eqb s) options) eqn:E; try discriminate.
  intros H; injection H as <-.
  apply existsb_exists in E as (o & Hin & Heq).
  apply String.eqb_eq in Heq. subst o. eauto.
Qed.

(** An object schema parses its shape key by key. *)
Lemma safeParse_object_cons (k : string) (sk : schema)
  (rest : list (string * schema)) (properties : list (string * value)) :
  safeParse (ZObject ((k, sk) :: rest)) (VObject properties) =
  match safeParse sk (match own_property k properties with
                      | Some x => x
                      | None => VUndefined
                      end),
        safeParse (ZObject rest) (VObject properties) with
  | Some x, Some (VObject out) =>
      Some (VObject (match x, own_property k properties with
                     | VUndefined, None => out
                     | _, _ => (k, x) :: out
                     end))
  | _, _ => None
  end.
Proof.
  simpl.
  destruct (safeParse sk _); [|reflexivity].
  match goal with
  | |- context [option_map VObject (?fields rest)] => destruct (fields rest)
  end; reflexivity.
Qed.

Lemma safeParse_object_nil (properties : list (string * value)) :
  safeParse (ZObject []) (VObject properties) = Some (VObject []).
Proof. reflexivity. Qed.

Lemma safeParse_object_inv (shape : list (string * schema)) (input x : value) :
  safeParse (ZObject shape) input = Some x ->
  exists properties, input = VObject properties.
Proof. destruct input; simpl; try discriminate; eauto. Qed.

Lemma safeParse_default_inv (inner : schema) (default input x : value) :
  safeParse (ZDefault inner default) input = Some x ->
  (input = VUndefined /\ safeParse inner default = Some x)
  \/ (input <> VUndefined /\ safeParse inner input = Some x).
Proof.
  change (safeParse (ZDefault inner default) input)
    with (safeParse inner (match input with
                           | VUndefined => default
                           | _ => input
                           end)).
  destruct input; intros H; try (right; split; [discriminate|exact H]).
  left. split; [reflexivity|exact H].
Qed.

Lemma safeParse_default_enum_inv (options : list string) (default : string)
  (input x : value) :
  safeParse (ZDefault (ZEnum options) (VString default)) input = Some x ->
  exists s, x = VString s /\ In s options
    /\ (input = VUndefined /\ s = default \/ input = VString s).
Proof.
  intros H.
  apply safeParse_default_inv in H as [[E H]|[_ H]];
    apply safeParse_enum_inv in H as (s & E' & -> & Hin);
    exists s; (split; [reflexivity|split; [exact Hin|]]).
  - left. injection E' as <-. split; [exact E|reflexivity].
  - right. exact E'.
Qed.

Lemma safeParse_default_number_inv (default : float) (input x : value) :
  safeParse (ZDefault ZNumber (VNumber default)) input = Some x ->
  exists n, x = VNumber n
    /\ (input = VUndefined /\ n = default \/ input = VNumber n).
Proof.
  intros H.
  apply safeParse_default_inv in H as [[E H]|[_ H]];
    apply safeParse_number_inv in H as (n & E' & -> & _);
    exists n; (split; [reflexivity|]).
  - left. injection E' as <-. split; [exact E|reflexivity].
  - right. exact E'.
Qed.

(** The value an object schema reads for a key is the one [Get] reads. *)
Lemma Get_object (properties : list (string * value)) (key : string) :
  Get (VObject properties) key =
  Normal (match own_property key properties with
          | Some x => x
          | None => VUndefined
          end).
Proof. simpl. destruct (own_property key properties); reflexivity. Qed.

(** A configuration that parses has exactly the four properties: the key
    is the string given, the model is the one given or the default and
    belongs to the enumeration, and the two numbers are the ones given or
    the defaults. *)
Lemma configSchema_shape (config parsedConfig : value) :
  safeParse configSchema config = Some parsedConfig ->
  exists key model maxTokens temperature,
    parsedConfig =
      VObject [ ("perplexityApiKey", VString key);
                ("model", VString model);
                ("maxTokens", VNumber maxTokens);
                ("temperature", VNumber temperature) ]
    /\ Get config "perplexityApiKey" = Normal (VString key)
    /\ In model ["sonar"; "sonar-pro"]
    /\ (Get config "model" = Normal VUndefined /\ model = "sonar-pro"
        \/ Get config "model" = Normal (VString model))
    /\ (Get config "maxTokens" = Normal VUndefined /\ maxTokens = 8192%float
        \/ Get config "maxTokens" = Normal (VNumber maxTokens))
    /\ (Get config "temperature" = Normal VUndefined
          /\ temperature = 0.2%float
        \/ Get config "temperature" = Normal (VNumber temperature)).
Proof.
  intros H. unfold configSchema in H.
  destruct (safeParse_object_inv _ _ _ H) as [properties ->].
  rewrite !safeParse_object_cons, safeParse_object_nil in H.
  rewrite !Get_object.
  destruct (safeParse ZString _) as [k|] eqn:Hk; [|discriminate].
  destruct (safeParse (ZDefault (ZEnum _) _) _) as [m|] eqn:Hm;
    [|discriminate].
  destruct (safeParse (ZDefault ZNumber (VNumber 8192)) _) as [t|] eqn:Ht;
    [|discriminate].
  destruct (safeParse (ZDefault ZNumber (VNumber 0.2)) _) as [c|] eqn:Hc;
    [|discriminate].
  apply safeParse_string_inv in Hk as (key & Ekey & ->).
  apply safeParse_default_enum_inv in Hm as (model & -> & Hin & Emodel).
  apply safeParse_default_number_inv in Ht as (maxTokens & -> & EmaxTokens).
  apply safeParse_default_number_inv in Hc
    as (temperature & -> & Etemperature).
  simpl in H. injection H as <-.
  exists key, model, maxTokens, temperature.
  repeat split; try assumption.
  - rewrite Ekey. reflexivity.
  - destruct Emodel as [[-> ->] | ->]; [left|right]; auto.
  - destruct EmaxTokens as [[-> ->] | ->]; [left|right]; auto.
  - destruct Etemperature as [[-> ->] | ->]; [left|right]; auto.
Qed.

(** Arguments that pass the tool's input schema are passed on as an
    object with a string [query], followed by the recency filter when
    the arguments have that key. *)
Lemma inputSchema_shape (args request : value) :
  safeParse (ZObject search_inputSchema) args = Some request ->
  exists query rest,
    request = VObject (("query", VString query) :: rest)
    /\ Get args "query" = Normal (VString query)
    /\ (rest = [] /\ Get args "search_recency_filter" = Normal VUndefined
        \/ rest = [("search_recency_filter", VUndefined)]
           /\ Get args "search_recency_filter" = Normal VUndefined
        \/ exists filter,
             rest = [("search_recency_filter", VString filter)]
             /\ Get args "search_recency_filter" = Normal (VString filter)
             /\ In filter ["month"; "week"; "day"; "hour"]).
Proof.
  intros H. unfold search_inputSchema in H.
  destruct (safeParse_object_inv _ _ _ H) as [properties ->].
  rewrite !safeParse_object_cons, safeParse_object_nil in H.
  rewrite !Get_object.
  destruct (safeParse ZString _) as [q|] eqn:Hq; [|discriminate].
  apply safeParse_string_inv in Hq as (query & Equery & ->).
  destruct (safeParse (ZOptional _) _) as [f|] eqn:Hf; [|discriminate].
  exists query. rewrite Equery.
  destruct (own_property "search_recency_filter" properties) as [x|] eqn:Ex.
  - destruct x; try discriminate Hf.
    + simpl in Hf. injection Hf as <-. simpl in H. injection H as <-.
      eexists. split; [reflexivity|]. split; [reflexivity|].
      right. left. split; reflexivity.
    + change (safeParse (ZOptional (ZEnum ["month"; "week"; "day"; "hour"]))
                (VString s))
        with (safeParse (ZEnum ["month"; "week"; "day"; "hour"]) (VString s))
        in Hf.
      apply safeParse_enum_inv in Hf as (filter & E & -> & Hin).
      injection E as ->. simpl in H. injection H as <-.
      eexists. split; [reflexivity|]. split; [reflexivity|].
      right. right. exists filter. repeat split; auto.
  - simpl in Hf. injection Hf as <-. simpl in H. injection H as <-.
    eexists. split; [reflexivity|]. split; [reflexivity|].
    left. split; reflexivity.
Qed.

(** Only an object has a string under a key that is no index. *)
Lemma Get_string_object (v : value) (key s : string) :
  array_index key = None ->
  Get v key = Normal (VString s) ->
  exists properties, v = VObject properties.
Proof.
  intros Hkey H. destruct v; simpl in H; try discriminate; eauto.
  - destruct (String.eqb key "length"); [discriminate|].
    rewrite Hkey in H. discriminate.
  - destruct (String.eqb key "length"); [discriminate|].
    rewrite Hkey in H. discriminate.
Qed.

Lemma own_property_Get (properties : list (string * value))
  (key : string) (x : value) :
  Get (VObject properties) key = Normal x ->
  match own_property key properties with
  | Some y => y
  | None => VUndefined
  end = x.
Proof. rewrite Get_object. intros H. injection H as H. exact H. Qed.

(** The schema of the configuration accepts an object with a string
    key whose other three properties are omitted or well-formed, keeps
    what is given and fills in the defaults. *)
Lemma configSchema_parses (config model maxTokens temperature : value)
  (key : string) :
  Get config "perplexityApiKey" = Normal (VString key) ->
  Get config "model" = Normal model ->
  model = VUndefined \/ model = VString "sonar"
    \/ model = VString "sonar-pro" ->
  Get config "maxTokens" = Normal maxTokens ->
  maxTokens = VUndefined
    \/ (exists n, maxTokens = VNumber n /\ PrimFloat.is_nan n = false) ->
  Get config "temperature" = Normal temperature ->
  temperature = VUndefined
    \/ (exists n, temperature = VNumber n /\ PrimFloat.is_nan n = false) ->
  safeParse configSchema config
  = Some (VObject
            [ ("perplexityApiKey", VString key);
              ("model", match model with
                        | VUndefined => VString "sonar-pro"
                        | _ => model
                        end);
              ("maxTokens", match maxTokens with
                            | VUndefined => VNumber 8192
                            | _ => maxTokens
                            end);
              ("temperature", match temperature with
                              | VUndefined => VNumber 0.2
                              | _ => temperature
                              end) ]).
Proof.
  intros Hkey Hmodel Hm HmaxTokens Ht Htemperature Hc.
  destruct (Get_string_object config "perplexityApiKey" key eq_refl Hkey)
    as [properties ->].
  apply own_property_Get in Hkey, Hmodel, HmaxTokens, Htemperature.
  unfold configSchema.
  rewrite !safeParse_object_cons, safeParse_object_nil.
  rewrite Hkey, Hmodel, HmaxTokens, Htemperature.
  destruct Hm as [-> | [-> | ->]];
    destruct Ht as [-> | (n & -> & Hn)];
    destruct Hc as [-> | (n' & -> & Hn')];
    simpl; rewrite ?Hn, ?Hn'; reflexivity.
Qed.

(** ** Strings *)

Lemma append_empty_r (s : string) : s ++ EmptyString = s.
Proof.
  induction s as [|c s IH]; simpl; [reflexivity|]. rewrite IH. reflexivity.
Qed.

(** ** Status codes print as decimal numerals *)

Lemma status_prints_all : forallb status_prints (seq 0 1000) = true.
Proof. vm_compute. reflexivity. Qed.

Lemma ToString_status (response : Response) :
  (status response < 1000)%N ->
  ToString (status_value response) = Normal (status_code response).
Proof.
  intros H. unfold status_value, status_code. simpl. f_equal.
  rewrite <- (N2Nat.id (status response)), nat_N_Z.
  apply String.eqb_eq.
  apply (proj1 (forallb_forall status_prints (seq 0 1000)) status_prints_all).
  apply in_seq. lia.
Qed.

(** ** The response block

    [step] unfolds the sequencing of the response block and splits on the
    next completion or test. *)

Ltac step :=
  cbv beta iota zeta
      delta [respond errorMessage formattedResponse LogicalOr caught
             bind lift try_catch ret negb];
  match goal with
  | |- context [match ?c with Normal _ => _ | Throw _ => _ end] =>
      destruct c eqn:?
  | |- context [if ?b then _ else _] => destruct b eqn:?
  end.

Ltac unfold_block :=
  cbv beta iota zeta
      delta [respond errorMessage formattedResponse LogicalOr caught
             bind lift try_catch ret negb].

Tactic Notation "run" constr(H) := rewrite H; unfold_block.
Tactic Notation "run_again" constr(H) := repeat (rewrite H; unfold_block).

(** The response block neither logs nor sends: its completion does not
    depend on the host, which it leaves as it is. *)
Lemma respond_pure (response : Response) :
  exists c, forall w, respond response w = (c, w).
Proof.
  repeat step; eexists; intros w; reflexivity.
Qed.

Lemma JSON_stringify_object (properties : list (string * value))
  (gap : string) :
  exists t, JSON_stringify (VObject properties) gap = VString t.
Proof. unfold JSON_stringify. simpl. eauto. Qed.

Lemma error_result_structured (message : string) :
  structured (error_result message).
Proof.
  split; [right; reflexivity|]. simpl. eauto.
Qed.

(** Whatever the response block returns is structured. *)
Lemma respond_structured (response : Response) (w w' : World)
  (r : CallToolResult) :
  respond response w = (Normal r, w') -> structured r.
Proof.
  repeat step; intros H; try discriminate; injection H as <- _;
    try apply error_result_structured.
  all: split; [left; reflexivity|]; simpl.
  all: match goal with
       | |- context [JSON_stringify (VObject ?ps) ?gap] =>
           destruct (JSON_stringify_object ps gap) as [? ->]
       end; eauto.
Qed.

(** Its error results are built by [error_result]. *)
Lemma respond_error_prefix (response : Response) (w w' : World)
  (r : CallToolResult) :
  respond response w = (Normal r, w') ->
  isError r = Some true ->
  exists message, r = error_result message.
Proof.
  repeat step; intros H; try discriminate; injection H as <- _; intros E;
    try discriminate; eauto.
Qed.

(** A response that is not ok and whose body does not parse. *)
Lemma respond_unparsable (response : Response) (t : thrown) (w : World) :
  ok response = false ->
  json response = Throw t ->
  (status response < 1000)%N ->
  respond response w
  = (Normal (error_result ("HTTP error! status: " ++ status_code response)), w).
Proof.
  intros Hok Hjson Hstatus. unfold_block.
  run Hok. run (ToString_status _ Hstatus). run Hjson. reflexivity.
Qed.

(** A response that is not ok with a truthy [error] property. *)
Lemma respond_error_field (response : Response) (data e : value)
  (s : string) (w : World) :
  ok response = false ->
  json response = Normal data ->
  Get data "error" = Normal e ->
  ToBoolean e = true ->
  ToString e = Normal s ->
  respond response w = (Normal (error_result s), w).
Proof.
  intros Hok Hjson Herror Htruthy Hstring. unfold_block.
  run Hok. simpl ToString. unfold_block.
  run Hjson. run Herror. run_again Htruthy. run Hstring. reflexivity.
Qed.

(** ... with a falsy [error] and a truthy [message] property. *)
Lemma respond_message_field (response : Response) (data e m : value)
  (s : string) (w : World) :
  ok response = false ->
  json response = Normal data ->
  Get data "error" = Normal e ->
  ToBoolean e = false ->
  Get data "message" = Normal m ->
  ToBoolean m = true ->
  ToString m = Normal s ->
  respond response w = (Normal (error_result s), w).
Proof.
  intros Hok Hjson Herror Hfalsy Hmessage Htruthy Hstring. unfold_block.
  run Hok. simpl ToString. unfold_block.
  run Hjson. run Herror. run Hfalsy. run Hmessage. run_again Htruthy.
  run Hstring. reflexivity.
Qed.

(** ... with both properties falsy. *)
Lemma respond_fallback (response : Response) (data e m : value) (w : World) :
  ok response = false ->
  json response = Normal data ->
  Get data "error" = Normal e ->
  ToBoolean e = false ->
  Get data "message" = Normal m ->
  ToBoolean m = false ->
  (status response < 1000)%N ->
  respond response w
  = (Normal (error_result ("HTTP error! status: " ++ status_code response)), w).
Proof.
  intros Hok Hjson Herror Hfalsy Hmessage Hfalsy' Hstatus. unfold_block.
  run Hok. run (ToString_status _ Hstatus).
  run Hjson. run Herror. run Hfalsy. run Hmessage. run Hfalsy'.
  reflexivity.
Qed.

(** An ok response whose body has [choices[0].message]. *)
Lemma respond_ok (response : Response)
  (data choices first message answer citations : value) (w : World) :
  ok response = true ->
  json response = Normal data ->
  Get data "choices" = Normal choices ->
  Get choices "0" = Normal first ->
  Get first "message" = Normal message ->
  Get message "content" = Normal answer ->
  Get data "citations" = Normal citations ->
  respond response w
  = (Normal
       {| content :=
            [ {| type := "text";
                 text :=
                   JSON_stringify
                     (VObject
                        [ ("content", answer);
                          ("citations",
                             if ToBoolean citations then citations
                             else VArray []) ])
                     "  " |} ];
          isError := None |},
     w).
Proof.
  intros Hok Hjson H1 H2 H3 H4 H5. unfold_block.
  run Hok. run Hjson. run H1. run H2. run H3. run H4. run H5.
  destruct (ToBoolean citations); reflexivity.
Qed.

(** An ok response whose body read fails. *)
Lemma respond_ok_unparsable (response : Response) (t : thrown) (w : World) :
  ok response = true ->
  json response = Throw t ->
  respond response w = (Throw t, w).
Proof.
  intros Hok Hjson. unfold_block. run Hok. run Hjson. reflexivity.
Qed.

(** ** The handler *)

Ltac unfold_handler :=
  cbv beta iota zeta
      delta [search bind lift try_catch ret fetch console_error caught].

Lemma destructure_object (name : string) (properties : list (string * value))
  (key : string) :
  destructure name (VObject properties) key = Get (VObject properties) key.
Proof. reflexivity. Qed.

(** The recency filter the handler finds in a validated request is the
    one of the arguments. *)
Lemma request_filter (args request : value) :
  safeParse (ZObject search_inputSchema) args = Some request ->
  exists query filter,
    Get args "query" = Normal (VString query)
    /\ Get args "search_recency_filter" = Normal filter
    /\ destructure "request" request "query" = Normal (VString query)
    /\ destructure "request" request "search_recency_filter" = Normal filter
    /\ (filter = VUndefined
        \/ exists f, filter = VString f
                     /\ In f ["month"; "week"; "day"; "hour"]).
Proof.
  intros H.
  apply inputSchema_shape in H as (query & rest & -> & Hquery & Hrest).
  exists query.
  destruct Hrest as [[-> Hf]|[[-> Hf]|(f & -> & Hf & Hin)]].
  - exists VUndefined. repeat split; auto.
  - exists VUndefined. repeat split; auto.
  - exists (VString f). repeat split; auto. right. eauto.
Qed.

(** With a parsed configuration and a validated request nothing before
    the [fetch] throws: the handler logs one line, sends one request and
    goes on with what the remote returns. *)
Lemma search_valid (remote : string -> RequestInit -> completion Response)
  (config parsedConfig args request : value) :
  safeParse configSchema config = Some parsedConfig ->
  safeParse (ZObject search_inputSchema) args = Some request ->
  exists query filter p line init,
    destructure "request" request "query" = Normal query
    /\ destructure "request" request "search_recency_filter" = Normal filter
    /\ payload parsedConfig query filter = Normal p
    /\ request_init parsedConfig p = Normal init
    /\ forall w,
         search remote parsedConfig request w
         = try_catch (response <- lift (remote endpoint init) ;;
                      respond response)
             caught
             {| stderr := stderr w ++ [line];
                requests := requests w ++ [(endpoint, init)] |}.
Proof.
  intros Hconfig Hrequest.
  apply configSchema_shape in Hconfig
    as (key & model & maxTokens & temperature & -> & _).
  apply request_filter in Hrequest
    as (query & filter & _ & _ & Hquery & Hfilter & _).
  exists (VString query), filter.
  eexists. eexists. eexists.
  split; [exact Hquery|]. split; [exact Hfilter|].
  split; [reflexivity|]. split; [reflexivity|].
  intros w. unfold_handler. rewrite Hquery, Hfilter.
  reflexivity.
Qed.

(** When the remote gives the same outcome to whatever it is sent, the
    handler goes on with that outcome. *)
Lemma search_outcome (remote : string -> RequestInit -> completion Response)
  (config parsedConfig args request : value) (outcome : completion Response)
  (w : World) :
  safeParse configSchema config = Some parsedConfig ->
  safeParse (ZObject search_inputSchema) args = Some request ->
  (forall init, remote endpoint init = outcome) ->
  exists w',
    search remote parsedConfig request w
    = try_catch (response <- lift outcome ;; respond response) caught w'.
Proof.
  intros Hconfig Hrequest Hremote.
  destruct (search_valid remote _ _ _ _ Hconfig Hrequest)
    as (query & filter & p & line & init & _ & _ & _ & _ & Hsearch).
  rewrite Hsearch, Hremote. eauto.
Qed.

(** The response block and the outer [catch] leave the host as the
    [fetch] left it. *)
Lemma after_fetch_host (outcome : completion Response) (w : World) :
  snd (try_catch (response <- lift outcome ;; respond response) caught w) = w.
Proof.
  unfold_handler. destruct outcome as [response|t]; [|reflexivity].
  destruct (respond_pure response) as [c Hc]. rewrite Hc.
  destruct c; reflexivity.
Qed.

(** ... and their completion does not depend on the host. *)
Lemma after_fetch_pure (outcome : completion Response) (w1 w2 : World) :
  fst (try_catch (response <- lift outcome ;; respond response) caught w1)
  = fst (try_catch (response <- lift outcome ;; respond response) caught w2).
Proof.
  unfold_handler. destruct outcome as [response|t]; [|reflexivity].
  destruct (respond_pure response) as [c Hc]. rewrite !Hc.
  destruct c; reflexivity.
Qed.

(** What follows the [fetch] always returns, and returns a structured
    result. *)
Lemma after_fetch_structured (outcome : completion Response) (w : World) :
  exists r w',
    try_catch (response <- lift outcome ;; respond response) caught w
    = (Normal r, w')
    /\ structured r.
Proof.
  unfold_handler. destruct outcome as [response|t].
  - destruct (respond response w) as [[r|t] w'] eqn:E.
    + exists r, w'. split; [reflexivity|].
      exact (respond_structured _ _ _ _ E).
    + eexists. eexists. split; [reflexivity|].
      apply error_result_structured.
  - eexists. eexists. split; [reflexivity|].
    apply error_result_structured.
Qed.

(** ... and its error results carry the prefix. *)
Lemma after_fetch_error_prefix (outcome : completion Response) (w w' : World)
  (r : CallToolResult) :
  try_catch (response <- lift outcome ;; respond response) caught w
  = (Normal r, w') ->
  isError r = Some true ->
  exists message, r = error_result message.
Proof.
  unfold_handler. destruct outcome as [response|t].
  - destruct (respond response w) as [[r0|t] w0] eqn:E;
      intros H; injection H as <- _; intros Herror; eauto.
    exact (respond_error_prefix _ _ _ _ E Herror).
  - intros H; injection H as <- _. eauto.
Qed.

(** The three ways an invocation can go, whatever the configuration and
    the request: the destructuring throws and the error escapes; a step
    before the [fetch] throws inside the [try] and is caught; or one
    request is sent and the handler goes on with the remote's outcome.
    Which one, and the request sent, depend on neither the remote nor
    the host. *)
Lemma search_cases (parsedConfig request : value) :
  (exists t,
      (destructure "request" request "query" = Throw t
       \/ destructure "request" request "search_recency_filter" = Throw t)
      /\ forall remote w, search remote parsedConfig request w = (Throw t, w))
  \/ (exists message,
        forall remote w, exists w',
          search remote parsedConfig request w
          = (Normal (error_result message), w'))
  \/ (exists line init,
        forall remote w,
          search remote parsedConfig request w
          = try_catch (response <- lift (remote endpoint init) ;;
                       respond response)
              caught
              {| stderr := stderr w ++ [line];
                 requests := requests w ++ [(endpoint, init)] |}).
Proof.
  destruct (destructure "request" request "query") as [query|t] eqn:Hquery.
  2: { left. exists t. split; [left; reflexivity|].
       intros remote w. unfold_handler. rewrite Hquery. reflexivity. }
  destruct (destructure "request" request "search_recency_filter")
    as [filter|t] eqn:Hfilter.
  2: { left. exists t. split; [right; reflexivity|].
       intros remote w. unfold_handler. rewrite Hquery, Hfilter.
       reflexivity. }
  right.
  destruct (payload parsedConfig query filter) as [p|t] eqn:Hpayload.
  2: { left. eexists. intros remote w. eexists. unfold_handler.
       rewrite Hquery, Hfilter, Hpayload. reflexivity. }
  destruct (using_model_line parsedConfig) as [line|t] eqn:Hline.
  2: { left. eexists. intros remote w. eexists. unfold_handler.
       rewrite Hquery, Hfilter, Hpayload, Hline. reflexivity. }
  destruct (request_init parsedConfig p) as [init|t] eqn:Hinit.
  2: { left. eexists. intros remote w. eexists. unfold_handler.
       rewrite Hquery, Hfilter, Hpayload, Hline, Hinit. reflexivity. }
  right. exists line, init. intros remote w. unfold_handler.
  rewrite Hquery, Hfilter, Hpayload, Hline, Hinit. reflexivity.
Qed.

(** The outer [catch] takes the message of an Error instance as it is,
    the empty string included. *)
Lemma caught_message (name message : string) (w : World) :
  caught (ErrorInstance name message) w = (Normal (error_result message), w).
Proof. reflexivity. Qed.

(** ** The scenarios of the specification *)

(** Status 200 with the answer Paris and one citation. *)
Example scenario_paris :
  search (always (Normal response_paris)) config_defaults args_france fresh
  = (Normal
       {| content :=
            [ {| type := "text";
                 text :=
                   VString
                     ("{" ++ newline
                      ++ "  " ++ quoted "content" ++ ": " ++ quoted "Paris"
                      ++ "," ++ newline
                      ++ "  " ++ quoted "citations" ++ ": [" ++ newline
                      ++ "    " ++ quoted "https://example.com" ++ newline
                      ++ "  ]" ++ newline
                      ++ "}") |} ];
          isError := None |},
     {| stderr :=
          [ "Using model: sonar-pro, max_tokens: 8192, temperature: 0.2" ];
        requests :=
          [ (endpoint,
             {| method := "POST";
                headers := [ ("Authorization", "Bearer pplx-key");
                             ("Content-Type", "application/json") ];
                body :=
                  VString
                    ("{" ++ quoted "model" ++ ":" ++ quoted "sonar-pro"
                     ++ "," ++ quoted "messages" ++ ":[{"
                     ++ quoted "role" ++ ":" ++ quoted "user" ++ ","
                     ++ quoted "content" ++ ":"
                     ++ quoted "What is the capital of France?" ++ "}],"
                     ++ quoted "max_tokens" ++ ":8192,"
                     ++ quoted "temperature" ++ ":0.2}") |}) ] |}).
Proof. reflexivity. Qed.

(** Status 401 with the body [{"error": "Invalid API key"}]. *)
Example scenario_invalid_key :
  fst (search (always (Normal response_invalid_key)) config_defaults
         args_france fresh)
  = Normal
      {| content :=
           [ {| type := "text";
                text := VString "Perplexity API error: Invalid API key" |} ];
         isError := Some true |}.
Proof. reflexivity. Qed.

(** The filter week: the body sent has the property. *)
Example scenario_week :
  exists init text,
    requests (snd (search (always (Normal response_paris)) config_defaults
                     args_france_week fresh))
    = [ (endpoint, init) ]
    /\ body init = VString text
    /\ occurs_in (quoted "search_recency_filter" ++ ":" ++ quoted "week") text.
Proof.
  eexists. eexists. split; [reflexivity|]. split; [reflexivity|].
  exists ("{" ++ quoted "model" ++ ":" ++ quoted "sonar-pro"
          ++ "," ++ quoted "messages" ++ ":[{"
          ++ quoted "role" ++ ":" ++ quoted "user" ++ ","
          ++ quoted "content" ++ ":"
          ++ quoted "What is the capital of France?" ++ "}],"
          ++ quoted "max_tokens" ++ ":8192,"
          ++ quoted "temperature" ++ ":0.2,"), "}".
  vm_compute. reflexivity.
Qed.

(** A body without [choices]: the property read throws and the outer
    [catch] reports it. *)
Example scenario_no_choices :
  fst (search (always (Normal {| status := 200;
                                 json := Normal (VObject []) |}))
         config_defaults args_france fresh)
  = Normal
      (error_result
         "Cannot read properties of undefined (reading '0')").
Proof. reflexivity. Qed.

(** A request that did not go through the input schema: the
    destructuring is outside the [try], and its TypeError escapes. *)
Example scenario_no_request :
  fst (search (always (Normal response_paris)) config_defaults VUndefined
         fresh)
  = Throw
      (TypeError
         "Cannot destructure property 'query' of 'request' as it is undefined.").
Proof. reflexivity. Qed.

(* ================================================================== *)
(** * The claims *)
(* ================================================================== *)

(** C1.  For every invocation of the search tool, that is for every
    request that passed the tool's input schema, and for every outcome of
    the HTTP call (rejection, any status, any body or body failure), the
    handler returns: its completion is a value, never a throw, and the
    value is a structured result whose error flag is absent or true.
    This holds for every configuration value. *)
Theorem search_returns_structured
  (remote : string -> RequestInit -> completion Response)
  (parsedConfig args request : value) (w : World) :
  safeParse (ZObject search_inputSchema) args = Some request ->
  exists r w',
    search remote parsedConfig request w = (Normal r, w') /\ structured r.
Proof.
  intros Hrequest.
  apply request_filter in Hrequest
    as (query & filter & _ & _ & Hquery & Hfilter & _).
  destruct (search_cases parsedConfig request)
    as [(t & [E|E] & _)|[(message & H)|(line & init & H)]].
  - rewrite Hquery in E. discriminate.
  - rewrite Hfilter in E. discriminate.
  - destruct (H remote w) as [w' ->].
    exists (error_result message), w'.
    split; [reflexivity|apply error_result_structured].
  - rewrite H. apply after_fetch_structured.
Qed.

Lemma search_returns_structured_witness :
  safeParse configSchema config_key_only = Some config_defaults
  /\ safeParse (ZObject search_inputSchema) args_france = Some args_france
  /\ (exists r w',
        search (always (Throw (TypeError "fetch failed"))) config_defaults
          args_france fresh = (Normal r, w')
        /\ structured r)
  /\ (exists r w',
        search (always (Normal response_bad_gateway)) config_defaults
          args_france fresh = (Normal r, w')
        /\ structured r)
  /\ (exists r w',
        search (always (Normal response_paris)) config_defaults
          args_france fresh = (Normal r, w')
        /\ structured r)
  /\ (exists r w',
        search (always (Normal {| status := 200;
                                  json := Normal (VObject []) |}))
          config_defaults args_france fresh = (Normal r, w')
        /\ structured r).
Proof.
  split; [reflexivity|]. split; [reflexivity|].
  repeat split;
    apply (search_returns_structured _ config_defaults args_france);
    reflexivity.
Defined.

(** C2, as amended.  For an ok response whose body parses and has
    [choices[0].message], the handler returns the success result whose
    text serializes [content], equal to [choices[0].message.content], and
    [citations], equal to the body's [citations] when that value is
    truthy and to the empty array when it is absent or falsy. *)
Theorem search_success_payload
  (remote : string -> RequestInit -> completion Response)
  (config parsedConfig args request : value) (response : Response)
  (data choices first message answer citations : value) (w : World) :
  safeParse configSchema config = Some parsedConfig ->
  safeParse (ZObject search_inputSchema) args = Some request ->
  (forall init, remote endpoint init = Normal response) ->
  ok response = true ->
  json response = Normal data ->
  Get data "choices" = Normal choices ->
  Get choices "0" = Normal first ->
  Get first "message" = Normal message ->
  Get message "content" = Normal answer ->
  Get data "citations" = Normal citations ->
  fst (search remote parsedConfig request w)
  = Normal (success_result answer
              (if ToBoolean citations then citations else VArray [])).
Proof.
  intros Hconfig Hrequest Hremote Hok Hjson H1 H2 H3 H4 H5.
  destruct (search_outcome _ _ _ _ _ _ w Hconfig Hrequest Hremote)
    as [w' ->].
  unfold_handler.
  rewrite (respond_ok _ _ _ _ _ _ _ w' Hok Hjson H1 H2 H3 H4 H5).
  reflexivity.
Qed.

Lemma search_success_payload_witness :
  fst (search (always (Normal response_paris)) config_defaults args_france
         fresh)
  = Normal (success_result (VString "Paris")
              (VArray [ VString "https://example.com" ])).
Proof.
  apply (search_success_payload _ config_key_only _ args_france _
           response_paris
           (body_paris (VArray [ VString "https://example.com" ]))
           (VArray [ VObject [ ("message",
                                  VObject [ ("content", VString "Paris") ]) ] ])
           (VObject [ ("message", VObject [ ("content", VString "Paris") ]) ])
           (VObject [ ("content", VString "Paris") ])
           (VString "Paris")
           (VArray [ VString "https://example.com" ]));
    reflexivity.
Defined.

(** C2 as stated fails on a body whose [citations] is [null]: the
    property is present, yet the result carries the empty array and not
    [null]. *)
Lemma search_success_null_citations :
  ok response_null_citations = true
  /\ json response_null_citations = Normal (body_paris VNull)
  /\ citations_if_present (body_paris VNull) = VNull
  /\ fst (search (always (Normal response_null_citations)) config_defaults
            args_france fresh)
     = Normal (success_result (VString "Paris") (VArray []))
  /\ success_result (VString "Paris") (VArray [])
     <> success_result (VString "Paris")
          (citations_if_present (body_paris VNull)).
Proof.
  repeat split; try reflexivity.
  intros H. vm_compute in H. discriminate H.
Qed.

(** C3, as amended.  For a response that is not ok and whose body parses
    to a value with a truthy [error] property, the handler returns the
    error result whose text is the prefix followed by that property
    converted to a string: the property itself when it is a non-empty
    string. *)
Theorem search_error_field
  (remote : string -> RequestInit -> completion Response)
  (config parsedConfig args request : value) (response : Response)
  (data e : value) (s : string) (w : World) :
  safeParse configSchema config = Some parsedConfig ->
  safeParse (ZObject search_inputSchema) args = Some request ->
  (forall init, remote endpoint init = Normal response) ->
  ok response = false ->
  json response = Normal data ->
  Get data "error" = Normal e ->
  ToBoolean e = true ->
  ToString e = Normal s ->
  fst (search remote parsedConfig request w)
  = Normal {| content := [ {| type := "text";
                              text := VString ("Perplexity API error: " ++ s) |} ];
              isError := Some true |}.
Proof.
  intros Hconfig Hrequest Hremote Hok Hjson Herror Htruthy Hstring.
  destruct (search_outcome _ _ _ _ _ _ w Hconfig Hrequest Hremote)
    as [w' ->].
  unfold_handler.
  rewrite (respond_error_field _ _ _ _ w' Hok Hjson Herror Htruthy Hstring).
  reflexivity.
Qed.

Lemma search_error_field_witness :
  fst (search (always (Normal response_invalid_key)) config_defaults
         args_france fresh)
  = Normal {| content :=
                [ {| type := "text";
                     text := VString "Perplexity API error: Invalid API key" |} ];
              isError := Some true |}.
Proof.
  apply (search_error_field _ config_key_only _ args_france _
           response_invalid_key
           (VObject [ ("error", VString "Invalid API key") ])
           (VString "Invalid API key") "Invalid API key");
    reflexivity.
Defined.

(** C3 as stated fails on a body whose [error] is the empty string: the
    text is not the prefix followed by that value but the status
    message. *)
Lemma search_error_field_empty :
  ok response_empty_error = false
  /\ json response_empty_error
     = Normal (VObject [ ("error", VString EmptyString) ])
  /\ fst (search (always (Normal response_empty_error)) config_defaults
            args_france fresh)
     = Normal (error_result "HTTP error! status: 401")
  /\ error_result "HTTP error! status: 401" <> error_result EmptyString.
Proof.
  repeat split; try reflexivity.
  intros H. discriminate H.
Qed.

(** C4.  For a response that is not ok and whose body does not parse,
    the handler returns the error result with the status message, and the
    decimal numeral of the status code occurs in its text.  Status codes
    are three-digit integers. *)
Theorem search_unparsable_status
  (remote : string -> RequestInit -> completion Response)
  (config parsedConfig args request : value) (response : Response)
  (t : thrown) (w : World) :
  safeParse configSchema config = Some parsedConfig ->
  safeParse (ZObject search_inputSchema) args = Some request ->
  (forall init, remote endpoint init = Normal response) ->
  ok response = false ->
  json response = Throw t ->
  (status response < 1000)%N ->
  exists message,
    fst (search remote parsedConfig request w)
    = Normal {| content := [ {| type := "text"; text := VString message |} ];
                isError := Some true |}
    /\ message
       = "Perplexity API error: HTTP error! status: " ++ status_code response
    /\ occurs_in (status_code response) message.
Proof.
  intros Hconfig Hrequest Hremote Hok Hjson Hstatus.
  destruct (search_outcome _ _ _ _ _ _ w Hconfig Hrequest Hremote)
    as [w' ->].
  unfold_handler.
  rewrite (respond_unparsable _ _ w' Hok Hjson Hstatus).
  eexists. split; [reflexivity|]. split; [reflexivity|].
  exists "Perplexity API error: HTTP error! status: ", EmptyString.
  rewrite append_empty_r. reflexivity.
Qed.

Lemma search_unparsable_status_witness :
  exists message,
    fst (search (always (Normal response_bad_gateway)) config_defaults
           args_france fresh)
    = Normal {| content := [ {| type := "text"; text := VString message |} ];
                isError := Some true |}
    /\ message = "Perplexity API error: HTTP error! status: 502"
    /\ occurs_in "502" message.
Proof.
  apply (search_unparsable_status _ config_key_only _ args_france _
           response_bad_gateway
           (ErrorInstance "SyntaxError"
              "Unexpected token < in JSON at position 0"));
    reflexivity.
Defined.

(** C5.  For a parsed configuration and a validated request, the payload
    the handler builds from the query and the filter it finds in the
    request is an object; when the arguments supply no recency filter it
    has no [search_recency_filter] property; when they supply one of
    month, week, day, hour it has that property with exactly that
    value. *)
Theorem payload_recency_filter (config parsedConfig args request : value) :
  safeParse configSchema config = Some parsedConfig ->
  safeParse (ZObject search_inputSchema) args = Some request ->
  exists query filter properties,
    destructure "request" request "query" = Normal query
    /\ destructure "request" request "search_recency_filter" = Normal filter
    /\ payload parsedConfig query filter = Normal (VObject properties)
    /\ (Get args "search_recency_filter" = Normal VUndefined ->
        own_property "search_recency_filter" properties = None)
    /\ (forall f,
          In f ["month"; "week"; "day"; "hour"] ->
          Get args "search_recency_filter" = Normal (VString f) ->
          own_property "search_recency_filter" properties
          = Some (VString f)).
Proof.
  intros Hconfig Hrequest.
  apply configSchema_shape in Hconfig
    as (key & model & maxTokens & temperature & -> & _).
  apply request_filter in Hrequest
    as (query & filter & _ & Hargs & Hquery & Hfilter & Hcases).
  exists (VString query), filter.
  destruct Hcases as [-> | (f & -> & Hin)].
  - eexists. split; [exact Hquery|]. split; [exact Hfilter|].
    split; [reflexivity|]. split; [reflexivity|].
    intros f _ E. rewrite Hargs in E. discriminate.
  - assert (ToBoolean (VString f) = true) as Htruthy.
    { simpl in Hin.
      destruct Hin as [<-|[<-|[<-|[<-|[]]]]]; reflexivity. }
    eexists. split; [exact Hquery|]. split; [exact Hfilter|].
    split; [unfold payload; rewrite Htruthy; reflexivity|].
    split.
    + intros E. rewrite Hargs in E. discriminate.
    + intros f' _ E. rewrite Hargs in E. injection E as <-. reflexivity.
Qed.

Lemma payload_recency_filter_witness :
  exists query filter properties,
    destructure "request" args_france_week "query" = Normal query
    /\ destructure "request" args_france_week "search_recency_filter"
       = Normal filter
    /\ payload config_defaults query filter = Normal (VObject properties)
    /\ (Get args_france_week "search_recency_filter" = Normal VUndefined ->
        own_property "search_recency_filter" properties = None)
    /\ (forall f,
          In f ["month"; "week"; "day"; "hour"] ->
          Get args_france_week "search_recency_filter"
          = Normal (VString f) ->
          own_property "search_recency_filter" properties
          = Some (VString f)).
Proof.
  apply (payload_recency_filter config_key_only); reflexivity.
Defined.

(** C6.  For a parsed configuration and a validated request whose query
    is [query], the payload is the object with, in this order, the
    configuration's model, a messages array holding the single message of
    role user whose content is the query, the configuration's maxTokens
    as max_tokens and its temperature, followed by the recency filter
    alone when there is one; and the handler sends exactly one request, a
    POST to the endpoint whose body is that payload serialized. *)
Theorem outbound_request
  (remote : string -> RequestInit -> completion Response)
  (config parsedConfig args request : value) (w : World) :
  safeParse configSchema config = Some parsedConfig ->
  safeParse (ZObject search_inputSchema) args = Some request ->
  exists query filter model max_tokens temperature extra init,
    Get args "query" = Normal (VString query)
    /\ Get args "search_recency_filter" = Normal filter
    /\ Get parsedConfig "model" = Normal model
    /\ Get parsedConfig "maxTokens" = Normal max_tokens
    /\ Get parsedConfig "temperature" = Normal temperature
    /\ payload parsedConfig (VString query) filter
       = Normal
           (VObject
              ([ ("model", model);
                 ("messages",
                    VArray [ VObject [ ("role", VString "user");
                                       ("content", VString query) ] ]);
                 ("max_tokens", max_tokens);
                 ("temperature", temperature) ] ++ extra)%list)
    /\ (filter = VUndefined /\ extra = []
        \/ filter <> VUndefined
           /\ extra = [ ("search_recency_filter", filter) ])
    /\ method init = "POST"
    /\ body init
       = JSON_stringify
           (VObject
              ([ ("model", model);
                 ("messages",
                    VArray [ VObject [ ("role", VString "user");
                                       ("content", VString query) ] ]);
                 ("max_tokens", max_tokens);
                 ("temperature", temperature) ] ++ extra)%list)
           EmptyString
    /\ requests (snd (search remote parsedConfig request w))
       = (requests w ++ [ (endpoint, init) ])%list.
Proof.
  intros Hconfig Hrequest.
  destruct (search_valid remote _ _ _ _ Hconfig Hrequest)
    as (query' & filter' & p & line & init & Hq & Hf & Hpayload & Hinit
        & Hsearch).
  apply configSchema_shape in Hconfig
    as (key & model & maxTokens & temperature & -> & _).
  apply request_filter in Hrequest
    as (query & filter & Hargsq & Hargsf & Hquery & Hfilter & Hcases).
  rewrite Hquery in Hq. injection Hq as <-.
  rewrite Hfilter in Hf. injection Hf as <-.
  exists query, filter, (VString model), (VNumber maxTokens),
    (VNumber temperature).
  assert (exists extra,
             payload
               (VObject
                  [ ("perplexityApiKey", VString key);
                    ("model", VString model);
                    ("maxTokens", VNumber maxTokens);
                    ("temperature", VNumber temperature) ])
               (VString query) filter
             = Normal
                 (VObject
                    ([ ("model", VString model);
                       ("messages",
                          VArray [ VObject [ ("role", VString "user");
                                             ("content", VString query) ] ]);
                       ("max_tokens", VNumber maxTokens);
                       ("temperature", VNumber temperature) ] ++ extra)%list)
             /\ (filter = VUndefined /\ extra = []
                 \/ filter <> VUndefined
                    /\ extra = [ ("search_recency_filter", filter) ]))
    as (extra & Hp & Hextra).
  { destruct Hcases as [-> | (f & -> & Hin)].
    - exists []. split; [reflexivity|]. left. split; reflexivity.
    - assert (ToBoolean (VString f) = true) as Htruthy.
      { simpl in Hin.
        destruct Hin as [<-|[<-|[<-|[<-|[]]]]]; reflexivity. }
      exists [ ("search_recency_filter", VString f) ].
      split; [unfold payload; rewrite Htruthy; reflexivity|].
      right. split; [discriminate|reflexivity]. }
  exists extra, init.
  rewrite Hp in Hpayload. injection Hpayload as <-.
  injection Hinit as <-.
  repeat split; try assumption; try reflexivity.
  rewrite Hsearch, after_fetch_host. reflexivity.
Qed.

Lemma outbound_request_witness :
  exists query filter model max_tokens temperature extra init,
    Get args_france_week "query" = Normal (VString query)
    /\ Get args_france_week "search_recency_filter" = Normal filter
    /\ Get config_defaults "model" = Normal model
    /\ Get config_defaults "maxTokens" = Normal max_tokens
    /\ Get config_defaults "temperature" = Normal temperature
    /\ payload config_defaults (VString query) filter
       = Normal
           (VObject
              ([ ("model", model);
                 ("messages",
                    VArray [ VObject [ ("role", VString "user");
                                       ("content", VString query) ] ]);
                 ("max_tokens", max_tokens);
                 ("temperature", temperature) ] ++ extra)%list)
    /\ (filter = VUndefined /\ extra = []
        \/ filter <> VUndefined
           /\ extra = [ ("search_recency_filter", filter) ])
    /\ method init = "POST"
    /\ body init
       = JSON_stringify
           (VObject
              ([ ("model", model);
                 ("messages",
                    VArray [ VObject [ ("role", VString "user");
                                       ("content", VString query) ] ]);
                 ("max_tokens", max_tokens);
                 ("temperature", temperature) ] ++ extra)%list)
           EmptyString
    /\ requests
         (snd (search (always (Normal response_paris)) config_defaults
                 args_france_week fresh))
       = (requests fresh ++ [ (endpoint, init) ])%list.
Proof.
  apply (outbound_request _ config_key_only _ args_france_week);
    reflexivity.
Defined.

(** C7.  Two invocations with the same configuration and the same
    request, against remotes that give the same outcome, complete alike:
    the same result, success or error, with the same text and flag (or
    the same escaping error).  The hosts may differ in what was logged
    and sent before: the completion depends on neither. *)
Theorem search_deterministic
  (remote1 remote2 : string -> RequestInit -> completion Response)
  (parsedConfig request : value) (w1 w2 : World) :
  (forall init, remote1 endpoint init = remote2 endpoint init) ->
  fst (search remote1 parsedConfig request w1)
  = fst (search remote2 parsedConfig request w2).
Proof.
  intros Hremote.
  destruct (search_cases parsedConfig request)
    as [(t & _ & H)|[(message & H)|(line & init & H)]].
  - rewrite !H. reflexivity.
  - destruct (H remote1 w1) as [w1' ->].
    destruct (H remote2 w2) as [w2' ->].
    reflexivity.
  - rewrite !H, Hremote. apply after_fetch_pure.
Qed.

Lemma search_deterministic_witness :
  fst (search (always (Normal response_paris)) config_defaults args_france
         fresh)
  = fst (search (fun _ _ => Normal response_paris) config_defaults
           args_france
           {| stderr := [ "Using Perplexity model: sonar-pro" ];
              requests := [] |}).
Proof.
  apply (search_deterministic (always (Normal response_paris))
           (fun _ _ => Normal response_paris)).
  intros init. reflexivity.
Defined.

(** C8.  Parsing the configuration applies the defaults: an object
    with a string key in which model, maxTokens and temperature are each
    omitted or well-formed does parse, to the object that keeps what is
    given and has model sonar-pro, maxTokens 8192 and temperature 0.2
    for what is omitted.  Whenever a configuration parses, what it omits
    has these defaults and its parsed model is sonar or sonar-pro.  A
    configuration whose model is any other value does not parse:
    [createServer] throws the ZodError. *)
Theorem configSchema_defaults (config : value) :
  (forall key model maxTokens temperature,
      Get config "perplexityApiKey" = Normal (VString key) ->
      Get config "model" = Normal model ->
      model = VUndefined \/ model = VString "sonar"
        \/ model = VString "sonar-pro" ->
      Get config "maxTokens" = Normal maxTokens ->
      maxTokens = VUndefined
        \/ (exists n, maxTokens = VNumber n /\ PrimFloat.is_nan n = false) ->
      Get config "temperature" = Normal temperature ->
      temperature = VUndefined
        \/ (exists n, temperature = VNumber n
                      /\ PrimFloat.is_nan n = false) ->
      Zod.parse configSchema config
      = Normal
          (VObject
             [ ("perplexityApiKey", VString key);
               ("model", match model with
                         | VUndefined => VString "sonar-pro"
                         | _ => model
                         end);
               ("maxTokens", match maxTokens with
                             | VUndefined => VNumber 8192
                             | _ => maxTokens
                             end);
               ("temperature", match temperature with
                               | VUndefined => VNumber 0.2
                               | _ => temperature
                               end) ]))
  /\ (forall parsedConfig,
        Zod.parse configSchema config = Normal parsedConfig ->
        (Get config "model" = Normal VUndefined ->
         Get parsedConfig "model" = Normal (VString "sonar-pro"))
        /\ (Get config "maxTokens" = Normal VUndefined ->
            Get parsedConfig "maxTokens" = Normal (VNumber 8192))
        /\ (Get config "temperature" = Normal VUndefined ->
            Get parsedConfig "temperature" = Normal (VNumber 0.2))
        /\ (Get parsedConfig "model" = Normal (VString "sonar")
            \/ Get parsedConfig "model" = Normal (VString "sonar-pro")))
  /\ (forall model,
        Get config "model" = Normal model ->
        model <> VUndefined ->
        model <> VString "sonar" ->
        model <> VString "sonar-pro" ->
        forall remote w, createServer remote config w = (Throw ZodError, w)).
Proof.
  split; [|split].
  - intros key model maxTokens temperature Hkey Hmodel Hm HmaxTokens Ht
      Htemperature Hc.
    unfold Zod.parse.
    rewrite (configSchema_parses _ _ _ _ _ Hkey Hmodel Hm HmaxTokens Ht
               Htemperature Hc).
    reflexivity.
  - intros parsedConfig H. unfold Zod.parse in H.
    destruct (safeParse configSchema config) as [x|] eqn:E; [|discriminate].
    injection H as ->.
    apply configSchema_shape in E
      as (key & model & maxTokens & temperature & -> & _ & Hin & Hmodel
          & HmaxTokens & Htemperature).
    repeat split.
    + intros Homitted. destruct Hmodel as [[_ ->]|Hgiven]; [reflexivity|].
      rewrite Hgiven in Homitted. discriminate.
    + intros Homitted. destruct HmaxTokens as [[_ ->]|Hgiven]; [reflexivity|].
      rewrite Hgiven in Homitted. discriminate.
    + intros Homitted.
      destruct Htemperature as [[_ ->]|Hgiven]; [reflexivity|].
      rewrite Hgiven in Homitted. discriminate.
    + simpl in Hin. destruct Hin as [<-|[<-|[]]]; [left|right]; reflexivity.
  - intros model Hget Hundefined Hsonar Hpro remote w.
    unfold createServer, Zod.parse.
    destruct (safeParse configSchema config) as [x|] eqn:E; [|reflexivity].
    exfalso.
    apply configSchema_shape in E
      as (key & m & maxTokens & temperature & _ & _ & Hin & Hmodel & _).
    destruct Hmodel as [[Homitted _]|Hgiven].
    + rewrite Hget in Homitted. injection Homitted as ->.
      apply Hundefined. reflexivity.
    + rewrite Hget in Hgiven. injection Hgiven as ->.
      simpl in Hin. destruct Hin as [<-|[<-|[]]]; auto.
Qed.

Lemma configSchema_defaults_witness :
  Zod.parse configSchema config_key_only
  = Normal (VObject [ ("perplexityApiKey", VString "pplx-key");
                      ("model", VString "sonar-pro");
                      ("maxTokens", VNumber 8192);
                      ("temperature", VNumber 0.2) ])
  /\ Zod.parse configSchema
       (VObject [ ("perplexityApiKey", VString "pplx-key");
                  ("model", VString "sonar");
                  ("temperature", VNumber 0.7) ])
     = Normal (VObject [ ("perplexityApiKey", VString "pplx-key");
                         ("model", VString "sonar");
                         ("maxTokens", VNumber 8192);
                         ("temperature", VNumber 0.7) ])
  /\ (Get config_defaults "model" = Normal (VString "sonar")
      \/ Get config_defaults "model" = Normal (VString "sonar-pro"))
  /\ createServer (always (Normal response_paris)) config_other_model fresh
     = (Throw ZodError, fresh).
Proof.
  split; [|split; [|split]].
  - apply (proj1 (configSchema_defaults config_key_only) "pplx-key"
             VUndefined VUndefined VUndefined);
      try reflexivity; left; reflexivity.
  - apply (proj1 (configSchema_defaults
                    (VObject [ ("perplexityApiKey", VString "pplx-key");
                               ("model", VString "sonar");
                               ("temperature", VNumber 0.7) ]))
             "pplx-key" (VString "sonar") VUndefined (VNumber 0.7));
      try reflexivity.
    + right. left. reflexivity.
    + left. reflexivity.
    + right. exists 0.7%float. split; reflexivity.
  - apply (proj1 (proj2 (configSchema_defaults config_key_only))
             config_defaults eq_refl).
  - apply (proj2 (proj2 (configSchema_defaults config_other_model))
             (VString "sonar-reasoning")); try reflexivity; discriminate.
Defined.

(** C9.  In the branch of a response that is not ok, a body whose
    [error] property is present but falsy (the empty string, for
    instance) does not give its [error]: the handler returns the
    [message] property converted to a string when that one is truthy, and
    the status message when it is falsy too. *)
Theorem search_error_truthiness
  (remote : string -> RequestInit -> completion Response)
  (config parsedConfig args request : value) (response : Response)
  (data e m : value) (w : World) :
  safeParse configSchema config = Some parsedConfig ->
  safeParse (ZObject search_inputSchema) args = Some request ->
  (forall init, remote endpoint init = Normal response) ->
  ok response = false ->
  (status response < 1000)%N ->
  json response = Normal data ->
  Get data "error" = Normal e ->
  ToBoolean e = false ->
  Get data "message" = Normal m ->
  (ToBoolean m = true ->
   forall s, ToString m = Normal s ->
   fst (search remote parsedConfig request w) = Normal (error_result s))
  /\ (ToBoolean m = false ->
      fst (search remote parsedConfig request w)
      = Normal (error_result
                  ("HTTP error! status: " ++ status_code response))).
Proof.
  intros Hconfig Hrequest Hremote Hok Hstatus Hjson Herror Hfalsy Hmessage.
  destruct (search_outcome _ _ _ _ _ _ w Hconfig Hrequest Hremote)
    as [w' ->].
  unfold_handler. split.
  - intros Htruthy s Hstring.
    rewrite (respond_message_field _ _ _ _ _ w' Hok Hjson Herror Hfalsy
               Hmessage Htruthy Hstring).
    reflexivity.
  - intros Hfalsy'.
    rewrite (respond_fallback _ _ _ _ w' Hok Hjson Herror Hfalsy Hmessage
               Hfalsy' Hstatus).
    reflexivity.
Qed.

Lemma search_error_truthiness_witness :
  fst (search (always (Normal response_empty_error_message)) config_defaults
         args_france fresh)
  = Normal (error_result "Rate limited")
  /\ fst (search (always (Normal response_empty_error)) config_defaults
            args_france fresh)
     = Normal (error_result "HTTP error! status: 401").
Proof.
  split.
  - refine (proj1 (search_error_truthiness
                     (always (Normal response_empty_error_message))
                     config_key_only config_defaults args_france args_france
                     response_empty_error_message
                     (VObject [ ("error", VString EmptyString);
                                ("message", VString "Rate limited") ])
                     (VString EmptyString) (VString "Rate limited") fresh
                     _ _ _ _ _ _ _ _ _) _ "Rate limited" _);
      try reflexivity.
  - refine (proj2 (search_error_truthiness
                     (always (Normal response_empty_error))
                     config_key_only config_defaults args_france args_france
                     response_empty_error
                     (VObject [ ("error", VString EmptyString) ])
                     (VString EmptyString) VUndefined fresh
                     _ _ _ _ _ _ _ _ _) _);
      try reflexivity.
Defined.

(** C10.  Every error result of the handler has a text that begins with
    the prefix "Perplexity API error: ", whichever path produced it; and
    when what is caught is not an Error instance, as when the [fetch]
    rejects with such a value or the body read of an ok response does,
    the text is "Perplexity API error: Unknown error occurred". *)
Theorem error_text_prefix
  (remote : string -> RequestInit -> completion Response)
  (parsedConfig request : value) (w : World) :
  (forall r w',
      search remote parsedConfig request w = (Normal r, w') ->
      isError r = Some true ->
      exists message,
        content r
        = [ {| type := "text";
               text := VString ("Perplexity API error: " ++ message) |} ])
  /\ (forall config args outcome v,
        safeParse configSchema config = Some parsedConfig ->
        safeParse (ZObject search_inputSchema) args = Some request ->
        (forall init, remote endpoint init = outcome) ->
        (outcome = Throw (Thrown v)
         \/ exists response,
              outcome = Normal response
              /\ ok response = true
              /\ json response = Throw (Thrown v)) ->
        fst (search remote parsedConfig request w)
        = Normal
            {| content :=
                 [ {| type := "text";
                      text :=
                        VString
                          "Perplexity API error: Unknown error occurred" |} ];
               isError := Some true |}).
Proof.
  split.
  - intros r w' Hsearch Herror.
    destruct (search_cases parsedConfig request)
      as [(t & _ & H)|[(message & H)|(line & init & H)]].
    + rewrite H in Hsearch. discriminate.
    + destruct (H remote w) as [w'' E]. rewrite E in Hsearch.
      injection Hsearch as <- _. exists message. reflexivity.
    + rewrite H in Hsearch.
      destruct (after_fetch_error_prefix _ _ _ _ Hsearch Herror)
        as [message ->].
      exists message. reflexivity.
  - intros config args outcome v Hconfig Hrequest Hremote Hcaught.
    destruct (search_outcome _ _ _ _ _ _ w Hconfig Hrequest Hremote)
      as [w' ->].
    unfold_handler.
    destruct Hcaught as [-> | (response & -> & Hok & Hjson)].
    + reflexivity.
    + rewrite (respond_ok_unparsable _ _ w' Hok Hjson). reflexivity.
Qed.

Lemma error_text_prefix_witness :
  fst (search (always (Throw (Thrown (VString "offline")))) config_defaults
         args_france fresh)
  = Normal
      {| content :=
           [ {| type := "text";
                text :=
                  VString "Perplexity API error: Unknown error occurred" |} ];
         isError := Some true |}.
Proof.
  apply (proj2 (error_text_prefix _ config_defaults args_france fresh)
           config_key_only args_france
           (Throw (Thrown (VString "offline"))) (VString "offline"));
    try reflexivity.
  left. reflexivity.
Defined.

(* ================================================================== *)
(** * Further properties of the server *)
(* ================================================================== *)

(** ** The configuration schema *)

(** The two numbers of a parsed configuration are not NaN. *)
Lemma configSchema_numbers (config : value) (key model : string)
  (maxTokens temperature : float) :
  safeParse configSchema config
  = Some (VObject [ ("perplexityApiKey", VString key);
                    ("model", VString model);
                    ("maxTokens", VNumber maxTokens);
                    ("temperature", VNumber temperature) ]) ->
  PrimFloat.is_nan maxTokens = false /\ PrimFloat.is_nan temperature = false.
Proof.
  intros H. unfold configSchema in H.
  destruct (safeParse_object_inv _ _ _ H) as [properties ->].
  rewrite !safeParse_object_cons, safeParse_object_nil in H.
  destruct (safeParse ZString _) as [k|] eqn:Hk; [|discriminate].
  destruct (safeParse (ZDefault (ZEnum _) _) _) as [m|] eqn:Hm;
    [|discriminate].
  destruct (safeParse (ZDefault ZNumber (VNumber 8192)) _) as [t|] eqn:Ht;
    [|discriminate].
  destruct (safeParse (ZDefault ZNumber (VNumber 0.2)) _) as [c|] eqn:Hc;
    [|discriminate].
  apply safeParse_string_inv in Hk as (key' & _ & ->).
  apply safeParse_default_enum_inv in Hm as (model' & -> & _).
  apply safeParse_default_inv in Ht as [[_ Ht]|[_ Ht]];
    apply safeParse_number_inv in Ht as (n & _ & -> & Hn);
    apply safeParse_default_inv in Hc as [[_ Hc]|[_ Hc]];
    apply safeParse_number_inv in Hc as (n' & _ & -> & Hn');
    simpl in H; inversion H; subst; split; assumption.
Qed.


(** X1.  With a configuration that parses, [createServer] returns the
    server perplexity-search-server 1.0.0 with exactly one tool, search,
    whose input schema is the one of lines 40 to 43 and whose handler is
    the search handler over the parsed configuration; it writes the one
    line naming the parsed model and sends nothing. *)
Theorem createServer_registers
  (remote : string -> RequestInit -> completion Response)
  (config parsedConfig : value) (w : World) :
  safeParse configSchema config = Some parsedConfig ->
  exists model server tool,
    Get parsedConfig "model" = Normal (VString model)
    /\ createServer remote config w
       = (Normal server,
          {| stderr := stderr w ++ [ "Using Perplexity model: " ++ model ];
             requests := requests w |})
    /\ name server = "perplexity-search-server"
    /\ version server = "1.0.0"
    /\ tools server = [ ("search", tool) ]
    /\ inputSchema tool = search_inputSchema
    /\ handler tool = search remote parsedConfig.
Proof.
  intros H. unfold createServer, Zod.parse. rewrite H.
  apply configSchema_shape in H
    as (key & model & maxTokens & temperature & -> & _).
  exists model. eexists. eexists.
  split; [reflexivity|]. split; [reflexivity|].
  repeat split.
Qed.

Lemma createServer_registers_witness :
  exists model server tool,
    Get config_defaults "model" = Normal (VString model)
    /\ createServer (always (Normal response_paris)) config_key_only fresh
       = (Normal server,
          {| stderr := stderr fresh ++ [ "Using Perplexity model: " ++ model ];
             requests := requests fresh |})
    /\ name server = "perplexity-search-server"
    /\ version server = "1.0.0"
    /\ tools server = [ ("search", tool) ]
    /\ inputSchema tool = search_inputSchema
    /\ handler tool
       = search (always (Normal response_paris)) config_defaults.
Proof.
  apply (createServer_registers _ config_key_only). reflexivity.
Defined.

(** X2.  A configuration without a string [perplexityApiKey], or whose
    [maxTokens] or [temperature] is given and is not a number other than
    NaN, does not parse: [createServer] throws the ZodError before it
    logs or registers anything. *)
Theorem createServer_rejects
  (remote : string -> RequestInit -> completion Response)
  (config : value) (w : World) :
  (forall key, Get config "perplexityApiKey" <> Normal (VString key))
  \/ (exists key x,
        In key [ "maxTokens"; "temperature" ]
        /\ Get config key = Normal x
        /\ x <> VUndefined
        /\ forall n, x = VNumber n -> PrimFloat.is_nan n = true) ->
  createServer remote config w = (Throw ZodError, w).
Proof.
  intros Hbad. unfold createServer, Zod.parse.
  destruct (safeParse configSchema config) as [parsedConfig|] eqn:E;
    [|reflexivity].
  exfalso.
  destruct (configSchema_shape _ _ E)
    as (key & model & maxTokens & temperature & -> & Hkey & _ & _
        & HmaxTokens & Htemperature).
  destruct (configSchema_numbers _ _ _ _ _ E) as [Hn Hn'].
  destruct Hbad as [Hbad|(k & x & Hin & Hget & Hgiven & Hnan)].
  - exact (Hbad key Hkey).
  - simpl in Hin. destruct Hin as [<-|[<-|[]]].
    + destruct HmaxTokens as [[Homitted _]|Hnumber];
        rewrite Hget in *.
      * injection Homitted as ->. apply Hgiven. reflexivity.
      * injection Hnumber as ->.
        rewrite (Hnan _ eq_refl) in Hn. discriminate.
    + destruct Htemperature as [[Homitted _]|Hnumber];
        rewrite Hget in *.
      * injection Homitted as ->. apply Hgiven. reflexivity.
      * injection Hnumber as ->.
        rewrite (Hnan _ eq_refl) in Hn'. discriminate.
Qed.

Lemma createServer_rejects_witness :
  createServer (always (Normal response_paris))
    (VObject [ ("perplexityApiKey", VString "pplx-key");
               ("maxTokens", VString "8192") ])
    fresh
  = (Throw ZodError, fresh)
  /\ createServer (always (Normal response_paris))
       (VObject [ ("model", VString "sonar") ]) fresh
     = (Throw ZodError, fresh).
Proof.
  split.
  - apply createServer_rejects. right.
    exists "maxTokens", (VString "8192").
    split; [left; reflexivity|]. split; [reflexivity|].
    split; discriminate.
  - apply createServer_rejects. left. intros key H. discriminate H.
Defined.

(** X3.  Parsing is idempotent: a parsed configuration parses to
    itself, so that a configuration to which the defaults were already
    applied goes through [createServer] unchanged. *)
Theorem configSchema_idempotent (config parsedConfig : value) :
  safeParse configSchema config = Some parsedConfig ->
  safeParse configSchema parsedConfig = Some parsedConfig.
Proof.
  intros H.
  destruct (configSchema_shape _ _ H)
    as (key & model & maxTokens & temperature & -> & _ & Hin & _).
  destruct (configSchema_numbers _ _ _ _ _ H) as [Hn Hn'].
  simpl in Hin.
  destruct Hin as [<-|[<-|[]]]; simpl; rewrite Hn, Hn'; reflexivity.
Qed.

Lemma configSchema_idempotent_witness :
  safeParse configSchema config_defaults = Some config_defaults.
Proof.
  apply (configSchema_idempotent config_key_only). reflexivity.
Defined.

(** X4.  The own properties of a parsed configuration are the four of
    the schema, in the schema's order, and no other: a key of the input
    that the schema does not name is not a property of the parsed
    configuration. *)
Theorem configSchema_strips (config parsedConfig : value) :
  safeParse configSchema config = Some parsedConfig ->
  exists properties,
    parsedConfig = VObject properties
    /\ map fst properties = config_keys
    /\ forall key, ~ In key config_keys ->
                   own_property key properties = None.
Proof.
  intros H.
  apply configSchema_shape in H
    as (k & model & maxTokens & temperature & -> & _).
  eexists. split; [reflexivity|]. split; [reflexivity|].
  intros key Hkey. unfold config_keys in Hkey. simpl in Hkey.
  cbn -[String.eqb].
  destruct (String.eqb_spec "perplexityApiKey" key); [tauto|].
  destruct (String.eqb_spec "model" key); [tauto|].
  destruct (String.eqb_spec "maxTokens" key); [tauto|].
  destruct (String.eqb_spec "temperature" key); [tauto|].
  reflexivity.
Qed.

Lemma configSchema_strips_witness :
  own_property "debug"
    [ ("perplexityApiKey", VString "pplx-key");
      ("debug", VBool true);
      ("model", VString "sonar") ]
  = Some (VBool true)
  /\ exists properties,
       safeParse configSchema config_extra_key = Some (VObject properties)
       /\ map fst properties = config_keys
       /\ own_property "debug" properties = None.
Proof.
  split; [reflexivity|].
  destruct (configSchema_strips config_extra_key
              (VObject [ ("perplexityApiKey", VString "pplx-key");
                         ("model", VString "sonar");
                         ("maxTokens", VNumber 8192);
                         ("temperature", VNumber 0.2) ])
              eq_refl)
    as (properties & Hparsed & Hkeys & Hother).
  exists properties. split; [rewrite <- Hparsed; reflexivity|].
  split; [exact Hkeys|].
  apply Hother. unfold config_keys. simpl.
  intros [H|[H|[H|[H|[]]]]]; discriminate H.
Defined.

(** X5.  The schema accepts every object with a string key, a model
    that is omitted or one of the two names, and a [maxTokens] and a
    [temperature] that are omitted or any number but NaN, negative and
    infinite ones included; what is given is kept as it is and what is
    omitted gets its default. *)
Theorem configSchema_accepts (config model maxTokens temperature : value)
  (key : string) :
  Get config "perplexityApiKey" = Normal (VString key) ->
  Get config "model" = Normal model ->
  model = VUndefined \/ model = VString "sonar"
    \/ model = VString "sonar-pro" ->
  Get config "maxTokens" = Normal maxTokens ->
  maxTokens = VUndefined
    \/ (exists n, maxTokens = VNumber n /\ PrimFloat.is_nan n = false) ->
  Get config "temperature" = Normal temperature ->
  temperature = VUndefined
    \/ (exists n, temperature = VNumber n /\ PrimFloat.is_nan n = false) ->
  safeParse configSchema config
  = Some (VObject
            [ ("perplexityApiKey", VString key);
              ("model", match model with
                        | VUndefined => VString "sonar-pro"
                        | _ => model
                        end);
              ("maxTokens", match maxTokens with
                            | VUndefined => VNumber 8192
                            | _ => maxTokens
                            end);
              ("temperature", match temperature with
                              | VUndefined => VNumber 0.2
                              | _ => temperature
                              end) ]).
Proof.
  intros Hkey Hmodel Hm HmaxTokens Ht Htemperature Hc.
  exact (configSchema_parses _ _ _ _ _ Hkey Hmodel Hm HmaxTokens Ht
           Htemperature Hc).
Qed.

Lemma configSchema_accepts_witness :
  safeParse configSchema
    (VObject [ ("perplexityApiKey", VString "pplx-key");
               ("model", VString "sonar");
               ("maxTokens", VNumber (-1));
               ("temperature", VNumber infinity) ])
  = Some (VObject [ ("perplexityApiKey", VString "pplx-key");
                    ("model", VString "sonar");
                    ("maxTokens", VNumber (-1));
                    ("temperature", VNumber infinity) ]).
Proof.
  apply (configSchema_accepts _ (VString "sonar") (VNumber (-1))
           (VNumber infinity) "pplx-key");
    try reflexivity.
  - right. left. reflexivity.
  - right. exists (-1)%float. split; reflexivity.
  - right. exists infinity. split; reflexivity.
Defined.

(** ** The input schema of the tool *)

(** X6.  Arguments whose [query] is not a string, or whose recency
    filter is given and is not one of month, week, day, hour, do not pass
    the input schema. *)
Theorem inputSchema_rejects (args : value) :
  (forall query, Get args "query" <> Normal (VString query))
  \/ (exists x,
        Get args "search_recency_filter" = Normal x
        /\ x <> VUndefined
        /\ forall f, In f [ "month"; "week"; "day"; "hour" ] ->
                     x <> VString f) ->
  safeParse (ZObject search_inputSchema) args = None.
Proof.
  intros Hbad.
  destruct (safeParse (ZObject search_inputSchema) args) as [request|] eqn:E;
    [|reflexivity].
  exfalso.
  apply request_filter in E
    as (query & filter & Hquery & Hfilter & _ & _ & Hcases).
  destruct Hbad as [Hbad|(x & Hget & Hgiven & Hother)].
  - exact (Hbad query Hquery).
  - rewrite Hget in Hfilter. injection Hfilter as ->.
    destruct Hcases as [-> | (f & -> & Hin)].
    + apply Hgiven. reflexivity.
    + exact (Hother f Hin eq_refl).
Qed.

Lemma inputSchema_rejects_witness :
  safeParse (ZObject search_inputSchema) args_france_year = None.
Proof.
  apply inputSchema_rejects. right. exists (VString "year").
  split; [reflexivity|]. split; [discriminate|].
  intros f Hin. simpl in Hin.
  destruct Hin as [<-|[<-|[<-|[<-|[]]]]]; discriminate.
Defined.

(** X7.  The input schema accepts every string as query, the empty
    string included, with a recency filter that is omitted or one of the
    four names; the request the handler gets has the query, then the
    filter when one was given, and nothing else of the arguments. *)
Theorem inputSchema_accepts (args filter : value) (query : string) :
  Get args "query" = Normal (VString query) ->
  Get args "search_recency_filter" = Normal filter ->
  filter = VUndefined
    \/ (exists f, filter = VString f
                  /\ In f [ "month"; "week"; "day"; "hour" ]) ->
  exists rest,
    safeParse (ZObject search_inputSchema) args
    = Some (VObject (("query", VString query) :: rest))
    /\ (filter = VUndefined ->
        rest = [] \/ rest = [ ("search_recency_filter", VUndefined) ])
    /\ (filter <> VUndefined ->
        rest = [ ("search_recency_filter", filter) ]).
Proof.
  intros Hquery Hfilter Hcases.
  destruct (Get_string_object args "query" query eq_refl Hquery)
    as [properties ->].
  apply own_property_Get in Hquery.
  rewrite Get_object in Hfilter. injection Hfilter as Hfilter.
  unfold search_inputSchema.
  rewrite !safeParse_object_cons, safeParse_object_nil.
  rewrite Hquery.
  destruct (own_property "search_recency_filter" properties) as [x|].
  - subst x. destruct Hcases as [-> | (f & -> & Hin)].
    + eexists. split; [reflexivity|]. split; [auto|].
      intros H. contradiction H. reflexivity.
    + simpl in Hin.
      destruct Hin as [<-|[<-|[<-|[<-|[]]]]];
        (eexists; split; [reflexivity|]; split;
         [discriminate|reflexivity]).
  - subst filter.
    eexists. split; [reflexivity|]. split; [auto|].
    intros H. contradiction H. reflexivity.
Qed.

Lemma inputSchema_accepts_witness :
  exists rest,
    safeParse (ZObject search_inputSchema)
      (VObject [ ("query", VString EmptyString); ("limit", VNumber 5) ])
    = Some (VObject (("query", VString EmptyString) :: rest))
    /\ (VUndefined = VUndefined ->
        rest = [] \/ rest = [ ("search_recency_filter", VUndefined) ])
    /\ (VUndefined <> VUndefined ->
        rest = [ ("search_recency_filter", VUndefined) ]).
Proof.
  apply (inputSchema_accepts
           (VObject [ ("query", VString EmptyString); ("limit", VNumber 5) ])
           VUndefined EmptyString);
    try reflexivity.
  left. reflexivity.
Defined.

(** ** The handler, further *)

(** An invocation in which nothing throws before the [fetch]. *)
Lemma search_sends (remote : string -> RequestInit -> completion Response)
  (parsedConfig request query filter p : value) (line : string)
  (init : RequestInit) (w : World) :
  destructure "request" request "query" = Normal query ->
  destructure "request" request "search_recency_filter" = Normal filter ->
  payload parsedConfig query filter = Normal p ->
  using_model_line parsedConfig = Normal line ->
  request_init parsedConfig p = Normal init ->
  search remote parsedConfig request w
  = try_catch (response <- lift (remote endpoint init) ;; respond response)
      caught
      {| stderr := stderr w ++ [line];
         requests := requests w ++ [(endpoint, init)] |}.
Proof.
  intros Hquery Hfilter Hpayload Hline Hinit. unfold_handler.
  rewrite Hquery, Hfilter, Hpayload, Hline, Hinit. reflexivity.
Qed.

(** A property read throws nothing but a TypeError. *)
Lemma Get_throws_TypeError (v : value) (key : string) (t : thrown) :
  Get v key = Throw t -> exists message, t = TypeError message.
Proof.
  destruct v; simpl; try discriminate.
  - intros H. injection H as <-. eauto.
  - intros H. injection H as <-. eauto.
  - destruct (String.eqb key "length"); [discriminate|].
    destruct (array_index key); [|discriminate].
    destruct (String.get n s); discriminate.
  - destruct (String.eqb key "length"); [discriminate|].
    destruct (array_index key); discriminate.
  - destruct (own_property key properties); discriminate.
Qed.

Lemma read_answer_throws_TypeError (data : value) (t : thrown) :
  read_answer data = Throw t -> exists message, t = TypeError message.
Proof.
  unfold read_answer, cbind.
  destruct (Get data "choices") as [choices|t1] eqn:E1;
    [|intros H; injection H as <-; exact (Get_throws_TypeError _ _ _ E1)].
  destruct (Get choices "0") as [first|t2] eqn:E2;
    [|intros H; injection H as <-; exact (Get_throws_TypeError _ _ _ E2)].
  destruct (Get first "message") as [message|t3] eqn:E3;
    [|intros H; injection H as <-; exact (Get_throws_TypeError _ _ _ E3)].
  intros H. exact (Get_throws_TypeError _ _ _ H).
Qed.

(** The response block on a response that is not ok: an error result,
    or a throw of the string conversion. *)
Lemma respond_not_ok (response : Response) (w : World) :
  ok response = false ->
  (exists message, respond response w = (Normal (error_result message), w))
  \/ (exists t, respond response w = (Throw t, w)).
Proof.
  intros Hok. unfold respond. rewrite Hok.
  repeat step; eauto.
Qed.

(** The response block returns a success only for an ok response whose
    body parses and lets the answer be read. *)
Lemma respond_success_inv (response : Response) (w w' : World)
  (r : CallToolResult) :
  respond response w = (Normal r, w') ->
  isError r = None ->
  ok response = true
  /\ exists data answer citations,
       json response = Normal data
       /\ read_answer data = Normal answer
       /\ Get data "citations" = Normal citations
       /\ r = success_result answer
                (if ToBoolean citations then citations else VArray []).
Proof.
  unfold read_answer, cbind.
  repeat step; intros H; try discriminate; injection H as <- _; intros E;
    try discriminate.
  all: split; [apply negb_false_iff; assumption|].
  all: do 3 eexists.
  all: split; [reflexivity|].
  all: repeat match goal with
              | H : Get _ _ = Normal _ |- _ => rewrite H; clear H
              end.
  all: split; [reflexivity|]; split; [reflexivity|].
  all: match goal with
       | H : ToBoolean _ = _ |- _ => rewrite H
       end; reflexivity.
Qed.

(** An ok response whose body parses but does not let the answer be
    read. *)
Lemma respond_ok_unreadable (response : Response) (data : value)
  (t : thrown) (w : World) :
  ok response = true ->
  json response = Normal data ->
  read_answer data = Throw t ->
  respond response w = (Throw t, w).
Proof.
  intros Hok Hjson. unfold read_answer, cbind. unfold_block.
  run Hok. run Hjson.
  destruct (Get data "choices") as [choices|t1];
    [|intros H; injection H as <-; reflexivity].
  unfold_block.
  destruct (Get choices "0") as [first|t2];
    [|intros H; injection H as <-; reflexivity].
  unfold_block.
  destruct (Get first "message") as [message|t3];
    [|intros H; injection H as <-; reflexivity].
  unfold_block.
  intros H. rewrite H. reflexivity.
Qed.

(** A response that is not ok, whose truthy [error] does not convert to
    a string. *)
Lemma respond_error_unprintable (response : Response) (data e : value)
  (t : thrown) (w : World) :
  ok response = false ->
  json response = Normal data ->
  Get data "error" = Normal e ->
  ToBoolean e = true ->
  ToString e = Throw t ->
  respond response w = (Throw t, w).
Proof.
  intros Hok Hjson Herror Htruthy Hstring. unfold_block.
  run Hok. simpl ToString. unfold_block.
  run Hjson. run Herror. run_again Htruthy. run Hstring. reflexivity.
Qed.

(** A response that is not ok whose body is [null]: the property read
    throws inside the inner [try]. *)
Lemma respond_null_body (response : Response) (data : value) (w : World) :
  ok response = false ->
  json response = Normal data ->
  data = VNull \/ data = VUndefined ->
  (status response < 1000)%N ->
  respond response w
  = (Normal (error_result ("HTTP error! status: " ++ status_code response)), w).
Proof.
  intros Hok Hjson Hdata Hstatus. unfold_block.
  run Hok. run (ToString_status _ Hstatus). run Hjson.
  destruct Hdata as [-> | ->]; reflexivity.
Qed.

(** What an invocation does to the host, whatever its inputs: nothing,
    or one line, or one line and one POST to the endpoint. *)
Lemma search_host (remote : string -> RequestInit -> completion Response)
  (parsedConfig request : value) (w : World) :
  snd (search remote parsedConfig request w) = w
  \/ (exists line,
        using_model_line parsedConfig = Normal line
        /\ snd (search remote parsedConfig request w)
           = {| stderr := stderr w ++ [line]; requests := requests w |})
  \/ (exists line init,
        using_model_line parsedConfig = Normal line
        /\ method init = "POST"
        /\ snd (search remote parsedConfig request w)
           = {| stderr := stderr w ++ [line];
                requests := requests w ++ [(endpoint, init)] |}).
Proof.
  destruct (destructure "request" request "query") as [query|t] eqn:Hquery.
  2: { left. unfold_handler. rewrite Hquery. reflexivity. }
  destruct (destructure "request" request "search_recency_filter")
    as [filter|t] eqn:Hfilter.
  2: { left. unfold_handler. rewrite Hquery, Hfilter. reflexivity. }
  destruct (payload parsedConfig query filter) as [p|t] eqn:Hpayload.
  2: { left. unfold_handler. rewrite Hquery, Hfilter, Hpayload.
       reflexivity. }
  destruct (using_model_line parsedConfig) as [line|t] eqn:Hline.
  2: { left. unfold_handler. rewrite Hquery, Hfilter, Hpayload, Hline.
       reflexivity. }
  destruct (request_init parsedConfig p) as [init|t] eqn:Hinit.
  2: { right. left. exists line. split; [reflexivity|].
       unfold_handler. rewrite Hquery, Hfilter, Hpayload, Hline, Hinit.
       reflexivity. }
  right. right. exists line, init. split; [reflexivity|]. split.
  - unfold request_init, cbind in Hinit.
    destruct (Get parsedConfig "perplexityApiKey"); [|discriminate].
    destruct (ToString a); [|discriminate].
    injection Hinit as <-. reflexivity.
  - rewrite (search_sends _ _ _ _ _ _ _ _ _ Hquery Hfilter Hpayload Hline
               Hinit).
    apply after_fetch_host.
Qed.

(** X8.  The one request of a valid invocation carries the headers
    Authorization, the word Bearer followed by the configured key, and
    Content-Type application/json, in this order and no other. *)
Theorem outbound_headers
  (remote : string -> RequestInit -> completion Response)
  (config parsedConfig args request : value) (w : World) :
  safeParse configSchema config = Some parsedConfig ->
  safeParse (ZObject search_inputSchema) args = Some request ->
  exists key init,
    Get config "perplexityApiKey" = Normal (VString key)
    /\ requests (snd (search remote parsedConfig request w))
       = (requests w ++ [ (endpoint, init) ])%list
    /\ headers init = [ ("Authorization", "Bearer " ++ key);
                        ("Content-Type", "application/json") ].
Proof.
  intros Hconfig Hrequest.
  destruct (search_valid remote _ _ _ _ Hconfig Hrequest)
    as (query & filter & p & line & init & _ & _ & _ & Hinit & Hsearch).
  apply configSchema_shape in Hconfig
    as (key & model & maxTokens & temperature & -> & Hkey & _).
  exists key, init. split; [exact Hkey|]. split.
  - rewrite Hsearch, after_fetch_host. reflexivity.
  - injection Hinit as <-. reflexivity.
Qed.

Lemma outbound_headers_witness :
  exists key init,
    Get config_key_only "perplexityApiKey" = Normal (VString key)
    /\ requests (snd (search (always (Normal response_paris))
                        config_defaults args_france fresh))
       = (requests fresh ++ [ (endpoint, init) ])%list
    /\ headers init = [ ("Authorization", "Bearer " ++ key);
                        ("Content-Type", "application/json") ].
Proof.
  apply (outbound_headers _ config_key_only _ args_france); reflexivity.
Defined.

(** X9.  A valid invocation writes exactly one line to standard error,
    made of the model, maxTokens and temperature of the configuration;
    neither the key nor the query is logged. *)
Theorem search_log_line
  (remote : string -> RequestInit -> completion Response)
  (config parsedConfig args request : value) (w : World) :
  safeParse configSchema config = Some parsedConfig ->
  safeParse (ZObject search_inputSchema) args = Some request ->
  exists model maxTokens temperature,
    Get parsedConfig "model" = Normal (VString model)
    /\ Get parsedConfig "maxTokens" = Normal (VNumber maxTokens)
    /\ Get parsedConfig "temperature" = Normal (VNumber temperature)
    /\ stderr (snd (search remote parsedConfig request w))
       = (stderr w
          ++ [ ("Using model: " ++ model
                ++ ", max_tokens: " ++ Number_toString maxTokens
                ++ ", temperature: " ++ Number_toString temperature)%string ])%list.
Proof.
  intros Hconfig Hrequest.
  apply configSchema_shape in Hconfig
    as (key & model & maxTokens & temperature & -> & _).
  apply request_filter in Hrequest
    as (query & filter & _ & _ & Hquery & Hfilter & _).
  exists model, maxTokens, temperature.
  repeat (split; [reflexivity|]).
  erewrite search_sends;
    [rewrite after_fetch_host|exact Hquery|exact Hfilter
    |reflexivity|reflexivity|reflexivity].
  reflexivity.
Qed.

Lemma search_log_line_witness :
  exists model maxTokens temperature,
    Get config_defaults "model" = Normal (VString model)
    /\ Get config_defaults "maxTokens" = Normal (VNumber maxTokens)
    /\ Get config_defaults "temperature" = Normal (VNumber temperature)
    /\ stderr (snd (search (always (Normal response_paris)) config_defaults
                      args_france fresh))
       = (stderr fresh
          ++ [ ("Using model: " ++ model
                ++ ", max_tokens: " ++ Number_toString maxTokens
                ++ ", temperature: " ++ Number_toString temperature)%string ])%list.
Proof.
  apply (search_log_line _ config_key_only _ args_france); reflexivity.
Defined.

(** X10.  The result of a valid invocation depends on the remote's
    outcome alone: two invocations with different configurations, keys
    and queries complete alike when the remote gives them the same
    outcome. *)
Theorem search_outcome_only
  (remote1 remote2 : string -> RequestInit -> completion Response)
  (config1 parsedConfig1 args1 request1 : value)
  (config2 parsedConfig2 args2 request2 : value)
  (outcome : completion Response) (w1 w2 : World) :
  safeParse configSchema config1 = Some parsedConfig1 ->
  safeParse (ZObject search_inputSchema) args1 = Some request1 ->
  safeParse configSchema config2 = Some parsedConfig2 ->
  safeParse (ZObject search_inputSchema) args2 = Some request2 ->
  (forall init, remote1 endpoint init = outcome) ->
  (forall init, remote2 endpoint init = outcome) ->
  fst (search remote1 parsedConfig1 request1 w1)
  = fst (search remote2 parsedConfig2 request2 w2).
Proof.
  intros Hc1 Hr1 Hc2 Hr2 Hremote1 Hremote2.
  destruct (search_outcome _ _ _ _ _ _ w1 Hc1 Hr1 Hremote1) as [w1' ->].
  destruct (search_outcome _ _ _ _ _ _ w2 Hc2 Hr2 Hremote2) as [w2' ->].
  apply after_fetch_pure.
Qed.

Lemma search_outcome_only_witness :
  fst (search (always (Normal response_paris)) config_defaults args_france
         fresh)
  = fst (search (always (Normal response_paris))
           (VObject [ ("perplexityApiKey", VString "pplx-key");
                      ("model", VString "sonar");
                      ("maxTokens", VNumber 8192);
                      ("temperature", VNumber 0.2) ])
           args_france_week fresh).
Proof.
  apply (search_outcome_only _ _ config_key_only _ args_france _
           config_extra_key _ args_france_week _
           (Normal response_paris));
    reflexivity.
Defined.

(** X11.  A response that is not ok never gives a success: whatever its
    body, the result of a valid invocation is an error result. *)
Theorem search_not_ok_is_error
  (remote : string -> RequestInit -> completion Response)
  (config parsedConfig args request : value) (response : Response)
  (w : World) :
  safeParse configSchema config = Some parsedConfig ->
  safeParse (ZObject search_inputSchema) args = Some request ->
  (forall init, remote endpoint init = Normal response) ->
  ok response = false ->
  exists message,
    fst (search remote parsedConfig request w)
    = Normal (error_result message).
Proof.
  intros Hconfig Hrequest Hremote Hok.
  destruct (search_outcome _ _ _ _ _ _ w Hconfig Hrequest Hremote)
    as [w' ->].
  unfold_handler.
  destruct (respond_not_ok response w' Hok) as [[message ->]|[t ->]];
    eexists; reflexivity.
Qed.

Lemma search_not_ok_is_error_witness :
  exists message,
    fst (search (always (Normal {| status := 302;
                                   json := Normal (body_paris (VArray [])) |}))
           config_defaults args_france fresh)
    = Normal (error_result message).
Proof.
  apply (search_not_ok_is_error _ config_key_only _ args_france _
           {| status := 302; json := Normal (body_paris (VArray [])) |});
    reflexivity.
Defined.

(** X12.  A success is returned only when the remote answered with an ok
    response whose body parsed and let [choices[0].message.content] be
    read; the result then serializes that answer and the citations.
    This holds for every configuration and request. *)
Theorem search_success_only_if
  (remote : string -> RequestInit -> completion Response)
  (parsedConfig request : value) (w w' : World) (r : CallToolResult) :
  search remote parsedConfig request w = (Normal r, w') ->
  isError r = None ->
  exists init response data answer citations,
    remote endpoint init = Normal response
    /\ ok response = true
    /\ json response = Normal data
    /\ read_answer data = Normal answer
    /\ Get data "citations" = Normal citations
    /\ r = success_result answer
             (if ToBoolean citations then citations else VArray []).
Proof.
  intros Hsearch Hsuccess.
  destruct (search_cases parsedConfig request)
    as [(t & _ & H)|[(message & H)|(line & init & H)]].
  - rewrite H in Hsearch. discriminate.
  - destruct (H remote w) as [w'' E]. rewrite E in Hsearch.
    injection Hsearch as <- _. discriminate.
  - rewrite H in Hsearch.
    cbv beta iota zeta delta [bind lift try_catch ret caught] in Hsearch.
    destruct (remote endpoint init) as [response|t] eqn:Hremote.
    + destruct (respond response _) as [[r0|t] w0] eqn:E.
      * injection Hsearch as -> _.
        destruct (respond_success_inv _ _ _ _ E Hsuccess)
          as (Hok & data & answer & citations & Hjson & Hanswer
              & Hcitations & ->).
        exists init, response, data, answer, citations. auto 10.
      * injection Hsearch as <- _. discriminate.
    + injection Hsearch as <- _. discriminate.
Qed.

Lemma search_success_only_if_witness :
  exists init response data answer citations,
    always (Normal response_paris) endpoint init = Normal response
    /\ ok response = true
    /\ json response = Normal data
    /\ read_answer data = Normal answer
    /\ Get data "citations" = Normal citations
    /\ success_result (VString "Paris")
         (VArray [ VString "https://example.com" ])
       = success_result answer
           (if ToBoolean citations then citations else VArray []).
Proof.
  eapply (search_success_only_if (always (Normal response_paris))
            config_defaults args_france fresh);
    reflexivity.
Defined.

(** X13.  When the [fetch] rejects with an Error, or the body read of an
    ok response does, the result of a valid invocation is the error
    result whose text is the prefix followed by that Error's message. *)
Theorem search_error_failures
  (remote : string -> RequestInit -> completion Response)
  (config parsedConfig args request : value)
  (outcome : completion Response) (name message : string) (w : World) :
  safeParse configSchema config = Some parsedConfig ->
  safeParse (ZObject search_inputSchema) args = Some request ->
  (forall init, remote endpoint init = outcome) ->
  outcome = Throw (ErrorInstance name message)
    \/ (exists response,
          outcome = Normal response
          /\ ok response = true
          /\ json response = Throw (ErrorInstance name message)) ->
  fst (search remote parsedConfig request w)
  = Normal {| content :=
                [ {| type := "text";
                     text := VString ("Perplexity API error: " ++ message) |} ];
              isError := Some true |}.
Proof.
  intros Hconfig Hrequest Hremote Hfailure.
  destruct (search_outcome _ _ _ _ _ _ w Hconfig Hrequest Hremote)
    as [w' ->].
  unfold_handler.
  destruct Hfailure as [-> | (response & -> & Hok & Hjson)].
  - reflexivity.
  - rewrite (respond_ok_unparsable _ _ w' Hok Hjson). reflexivity.
Qed.

Lemma search_error_failures_witness :
  fst (search (always (Throw (TypeError "fetch failed"))) config_defaults
         args_france fresh)
  = Normal {| content :=
                [ {| type := "text";
                     text := VString "Perplexity API error: fetch failed" |} ];
              isError := Some true |}.
Proof.
  apply (search_error_failures _ config_key_only _ args_france _
           (Throw (TypeError "fetch failed")) "TypeError" "fetch failed");
    try reflexivity.
  left. reflexivity.
Defined.

(** X14.  An ok response whose body parses but does not let
    [choices[0].message.content] be read, for lack of [choices], of a
    first choice or of its [message], gives no success: the property
    read throws a TypeError and the result is the error result with that
    TypeError's message. *)
Theorem search_malformed_body
  (remote : string -> RequestInit -> completion Response)
  (config parsedConfig args request : value) (response : Response)
  (data : value) (t : thrown) (w : World) :
  safeParse configSchema config = Some parsedConfig ->
  safeParse (ZObject search_inputSchema) args = Some request ->
  (forall init, remote endpoint init = Normal response) ->
  ok response = true ->
  json response = Normal data ->
  read_answer data = Throw t ->
  exists message,
    t = TypeError message
    /\ fst (search remote parsedConfig request w)
       = Normal (error_result message).
Proof.
  intros Hconfig Hrequest Hremote Hok Hjson Hread.
  destruct (search_outcome _ _ _ _ _ _ w Hconfig Hrequest Hremote)
    as [w' ->].
  destruct (read_answer_throws_TypeError _ _ Hread) as [message ->].
  exists message. split; [reflexivity|].
  unfold_handler.
  rewrite (respond_ok_unreadable _ _ _ w' Hok Hjson Hread). reflexivity.
Qed.

Lemma search_malformed_body_witness :
  exists message,
    TypeError "Cannot read properties of undefined (reading 'message')"
    = TypeError message
    /\ fst (search (always (Normal {| status := 200;
                                      json := Normal
                                                (VObject
                                                   [ ("choices", VArray []) ])
                                   |}))
              config_defaults args_france fresh)
       = Normal (error_result message).
Proof.
  apply (search_malformed_body _ config_key_only _ args_france _
           {| status := 200;
              json := Normal (VObject [ ("choices", VArray []) ]) |}
           (VObject [ ("choices", VArray []) ]));
    reflexivity.
Defined.

(** X15.  A response that is not ok whose body parses to something that
    is no object, [null], a number, a string or an array, gives the
    status message: the reads of [error] and [message] throw inside the
    inner [try] or find nothing. *)
Theorem search_non_object_body
  (remote : string -> RequestInit -> completion Response)
  (config parsedConfig args request : value) (response : Response)
  (data : value) (w : World) :
  safeParse configSchema config = Some parsedConfig ->
  safeParse (ZObject search_inputSchema) args = Some request ->
  (forall init, remote endpoint init = Normal response) ->
  ok response = false ->
  (status response < 1000)%N ->
  json response = Normal data ->
  (forall properties, data <> VObject properties) ->
  fst (search remote parsedConfig request w)
  = Normal (error_result ("HTTP error! status: " ++ status_code response)).
Proof.
  intros Hconfig Hrequest Hremote Hok Hstatus Hjson Hdata.
  destruct (search_outcome _ _ _ _ _ _ w Hconfig Hrequest Hremote)
    as [w' ->].
  unfold_handler.
  destruct data as [| |b|x|s|elements|properties].
  - rewrite (respond_null_body _ _ w' Hok Hjson (or_intror eq_refl) Hstatus).
    reflexivity.
  - rewrite (respond_null_body _ _ w' Hok Hjson (or_introl eq_refl) Hstatus).
    reflexivity.
  - rewrite (respond_fallback _ _ VUndefined VUndefined w' Hok Hjson
               eq_refl eq_refl eq_refl eq_refl Hstatus).
    reflexivity.
  - rewrite (respond_fallback _ _ VUndefined VUndefined w' Hok Hjson
               eq_refl eq_refl eq_refl eq_refl Hstatus).
    reflexivity.
  - rewrite (respond_fallback _ _ VUndefined VUndefined w' Hok Hjson
               eq_refl eq_refl eq_refl eq_refl Hstatus).
    reflexivity.
  - rewrite (respond_fallback _ _ VUndefined VUndefined w' Hok Hjson
               eq_refl eq_refl eq_refl eq_refl Hstatus).
    reflexivity.
  - contradiction (Hdata properties). reflexivity.
Qed.

Lemma search_non_object_body_witness :
  fst (search (always (Normal {| status := 503; json := Normal VNull |}))
         config_defaults args_france fresh)
  = Normal (error_result "HTTP error! status: 503").
Proof.
  refine (search_non_object_body
            (always (Normal {| status := 503; json := Normal VNull |}))
            config_key_only config_defaults args_france args_france
            {| status := 503; json := Normal VNull |} VNull fresh
            _ _ _ _ _ _ _);
    try reflexivity.
  intros properties H. discriminate H.
Defined.

(** X16.  A response that is not ok whose [error] is an object, as in
    [{"error": {"message": ...}}], does not give the inner message: the
    text is the prefix followed by [[object Object]], or, when the
    object has a [toString] property of its own, by the message of the
    TypeError that the string conversion throws. *)
Theorem search_error_object
  (remote : string -> RequestInit -> completion Response)
  (config parsedConfig args request : value) (response : Response)
  (data : value) (properties : list (string * value)) (w : World) :
  safeParse configSchema config = Some parsedConfig ->
  safeParse (ZObject search_inputSchema) args = Some request ->
  (forall init, remote endpoint init = Normal response) ->
  ok response = false ->
  json response = Normal data ->
  Get data "error" = Normal (VObject properties) ->
  fst (search remote parsedConfig request w)
  = Normal
      (error_result
         (match own_property "toString" properties with
          | None => "[object Object]"
          | Some _ => "Cannot convert object to primitive value"
          end)).
Proof.
  intros Hconfig Hrequest Hremote Hok Hjson Herror.
  destruct (search_outcome _ _ _ _ _ _ w Hconfig Hrequest Hremote)
    as [w' ->].
  unfold_handler.
  destruct (own_property "toString" properties) as [x|] eqn:E.
  - rewrite (respond_error_unprintable _ _ _
               (TypeError "Cannot convert object to primitive value") w'
               Hok Hjson Herror eq_refl);
      [reflexivity|].
    simpl. rewrite E. reflexivity.
  - rewrite (respond_error_field _ _ _ "[object Object]" w'
               Hok Hjson Herror eq_refl);
      [reflexivity|].
    simpl. rewrite E. reflexivity.
Qed.

Lemma search_error_object_witness :
  fst (search (always (Normal response_error_object)) config_defaults
         args_france fresh)
  = Normal (error_result "[object Object]").
Proof.
  refine (search_error_object
            (always (Normal response_error_object))
            config_key_only config_defaults args_france args_france
            response_error_object
            (VObject
               [ ("error",
                    VObject [ ("message", VString "Invalid API key");
                              ("type", VString "invalid_api_key");
                              ("code", VNumber 401) ]) ])
            [ ("message", VString "Invalid API key");
              ("type", VString "invalid_api_key");
              ("code", VNumber 401) ]
            fresh _ _ _ _ _ _);
    reflexivity.
Defined.

(** X17.  When the message of the first choice has no [content], the
    success result still comes, and its serialized object has no
    [content] property at all: only [citations]. *)
Theorem search_content_missing
  (remote : string -> RequestInit -> completion Response)
  (config parsedConfig args request : value) (response : Response)
  (data citations : value) (w : World) :
  safeParse configSchema config = Some parsedConfig ->
  safeParse (ZObject search_inputSchema) args = Some request ->
  (forall init, remote endpoint init = Normal response) ->
  ok response = true ->
  json response = Normal data ->
  read_answer data = Normal VUndefined ->
  Get data "citations" = Normal citations ->
  fst (search remote parsedConfig request w)
  = Normal
      {| content :=
           [ {| type := "text";
                text :=
                  JSON_stringify
                    (VObject
                       [ ("citations",
                            if ToBoolean citations then citations
                            else VArray []) ])
                    "  " |} ];
         isError := None |}.
Proof.
  intros Hconfig Hrequest Hremote Hok Hjson Hread Hcitations.
  destruct (search_outcome _ _ _ _ _ _ w Hconfig Hrequest Hremote)
    as [w' ->].
  unfold_handler.
  unfold read_answer, cbind in Hread.
  destruct (Get data "choices") as [choices|] eqn:H1; [|discriminate].
  destruct (Get choices "0") as [first|] eqn:H2; [|discriminate].
  destruct (Get first "message") as [message|] eqn:H3; [|discriminate].
  rewrite (respond_ok _ _ _ _ _ _ _ w' Hok Hjson H1 H2 H3 Hread Hcitations).
  reflexivity.
Qed.

Lemma search_content_missing_witness :
  fst (search
         (always (Normal {| status := 200;
                            json :=
                              Normal
                                (VObject
                                   [ ("choices",
                                        VArray
                                          [ VObject
                                              [ ("message", VObject []) ] ])
                                   ]) |}))
         config_defaults args_france fresh)
  = Normal
      {| content :=
           [ {| type := "text";
                text := JSON_stringify
                          (VObject [ ("citations", VArray []) ]) "  " |} ];
         isError := None |}.
Proof.
  refine (search_content_missing _ config_key_only config_defaults
            args_france args_france
            {| status := 200;
               json :=
                 Normal
                   (VObject
                      [ ("choices",
                           VArray [ VObject [ ("message", VObject []) ] ]) ])
            |}
            (VObject
               [ ("choices",
                    VArray [ VObject [ ("message", VObject []) ] ]) ])
            VUndefined fresh _ _ _ _ _ _ _);
    reflexivity.
Defined.

(** X18.  Whatever the configuration, the request and the remote, an
    invocation sends at most one request, a POST to the completions
    endpoint, and writes at most one line; it never retries. *)
Theorem search_sends_at_most_once
  (remote : string -> RequestInit -> completion Response)
  (parsedConfig request : value) (w : World) :
  (requests (snd (search remote parsedConfig request w)) = requests w
   \/ exists init,
        method init = "POST"
        /\ requests (snd (search remote parsedConfig request w))
           = (requests w ++ [ (endpoint, init) ])%list)
  /\ (stderr (snd (search remote parsedConfig request w)) = stderr w
      \/ exists line,
           stderr (snd (search remote parsedConfig request w))
           = (stderr w ++ [ line ])%list).
Proof.
  destruct (search_host remote parsedConfig request w)
    as [-> | [(line & _ & ->) | (line & init & _ & Hmethod & ->)]];
    simpl.
  - split; left; reflexivity.
  - split; [left; reflexivity|right; eauto].
  - split; right; eauto.
Qed.
